(** * Incident reporting front-end: session manager and incident browser

    A shallow embedding of [src/contexts/AuthContext.tsx] (the session
    manager) and of the incident list component (the incident browser),
    followed by the properties of the specification that concern them.

    JavaScript strings are [string]; [null]/[undefined] are [None];
    arrays are lists.  Calls to the hosted backend and React state setters
    are events of a small free monad ([Prog]), interpreted against an
    arbitrary backend. *)

From stdpp Require Import base list strings.
From Stdlib Require Import Ascii String List Bool Lia.
Import ListNotations.
Local Open Scope string_scope.
Local Open Scope list_scope.

(** ** JavaScript values *)

Module Js.

(** Truthiness of a string: only the empty string is falsy. *)
Definition truthy (s : string) : bool :=
  match s with
  | EmptyString => false
  | String _ _ => true
  end.

(** [s || d] on a possibly absent string: the right operand is taken when
    the left one is [undefined], [null] or empty. *)
Definition or_else (s : option string) (d : string) : string :=
  match s with
  | Some v => if truthy v then v else d
  | None => d
  end.

(** [s || null]. *)
Definition or_null (s : option string) : option string :=
  match s with
  | Some v => if truthy v then Some v else None
  | None => None
  end.

(** [s.includes(t)]: [t] occurs in [s] as a contiguous run of
    characters. *)
Fixpoint includes (s t : string) : bool :=
  String.prefix t s ||
  match s with
  | EmptyString => false
  | String _ s' => includes s' t
  end.

(** Truthiness of a possibly [undefined] boolean, as [Array.filter]
    coerces the result of its callback. *)
Definition truthy_bool (b : option bool) : bool :=
  match b with
  | Some v => v
  | None => false
  end.

End Js.

(** ** Data model *)

(** Modelled from the spec: [lib/database.types] is not among the sources;
    the role of a profile is [citizen] or [authority] (section 3). *)
Inductive Role : Type := citizen | authority.

(** Modelled from the spec: [lib/database.types] is not among the sources;
    the four status values of an incident (section 3). *)
Inductive Status : Type := pending | in_progress | resolved | rejected.

(** Modelled from the spec: [lib/database.types] is not among the sources;
    the four priorities of an incident (section 3). *)
Inductive Priority : Type := low | medium | high | urgent.

(** The representation of the enumerations at run time is their name. *)
Definition role_str (r : Role) : string :=
  match r with
  | citizen => "citizen"
  | authority => "authority"
  end.

Definition status_str (s : Status) : string :=
  match s with
  | pending => "pending"
  | in_progress => "in_progress"
  | resolved => "resolved"
  | rejected => "rejected"
  end.

Module Profile.
(** Modelled from the spec: [lib/database.types] is not among the
    sources; a row of the table [profiles] has the columns of section 6:
    id, email, full_name, phone, role, is_deleted, deleted_at. *)
Record t : Type := mk {
  id : string;
  email : string;
  full_name : string;
  phone : option string;
  role : Role;
  is_deleted : bool;
  deleted_at : option string
}.
End Profile.

Module Category.
(** Modelled from the spec: [lib/database.types] is not among the
    sources; a row of [incident_categories] is id, name, color. *)
Record t : Type := mk {
  id : string;
  name : string;
  color : string
}.
End Category.

Module Incident.
(** Modelled from the spec: [lib/database.types] is not among the
    sources; a row of [incidents] (section 6) joined, as the component's
    type [Incident] says, with its category and its reporting profile.
    The component tests [incident.profiles] before use, so the joined
    profile may be absent. *)
Record t : Type := mk {
  id : string;
  title : string;
  description : string;
  address : option string;
  status : Status;
  priority : Priority;
  incident_date : string;
  created_at : string;
  user_id : string;
  category_id : string;
  incident_categories : Category.t;
  profiles : option Profile.t
}.
End Incident.

(** ** Incident browser *)

Module IncidentList.

Definition statusLabels (s : Status) : string :=
  match s with
  | pending => "Pendiente"
  | in_progress => "En Proceso"
  | resolved => "Resuelta"
  | rejected => "Rechazada"
  end.

Definition statusColors (s : Status) : string :=
  match s with
  | pending => "bg-yellow-100 text-yellow-800"
  | in_progress => "bg-blue-100 text-blue-800"
  | resolved => "bg-green-100 text-green-800"
  | rejected => "bg-red-100 text-red-800"
  end.

Definition priorityLabels (p : Priority) : string :=
  match p with
  | low => "Baja"
  | medium => "Media"
  | high => "Alta"
  | urgent => "Urgente"
  end.

Definition priorityColors (p : Priority) : string :=
  match p with
  | low => "bg-gray-100 text-gray-800"
  | medium => "bg-blue-100 text-blue-800"
  | high => "bg-orange-100 text-orange-800"
  | urgent => "bg-red-100 text-red-800"
  end.

Section Filter.

(** [String.prototype.toLowerCase] of the JavaScript runtime. *)
Variable toLowerCase : string -> string.

(** The callback of the text filter:
    [title.toLowerCase().includes(t) || description... ||
     address?.toLowerCase().includes(t)] with
    [t = searchTerm.toLowerCase()].  The optional chain on [address]
    is [undefined] when the address is absent. *)
Definition matchesSearch (searchTerm : string) (incident : Incident.t) : bool :=
  Js.includes (toLowerCase (Incident.title incident)) (toLowerCase searchTerm) ||
  (Js.includes (toLowerCase (Incident.description incident)) (toLowerCase searchTerm) ||
   Js.truthy_bool
     (option_map (fun a => Js.includes (toLowerCase a) (toLowerCase searchTerm))
                 (Incident.address incident))).

(** The callback of the status filter:
    [incident.status === statusFilter]. *)
Definition matchesStatus (statusFilter : string) (incident : Incident.t) : bool :=
  String.eqb (status_str (Incident.status incident)) statusFilter.

(** [if (searchTerm) filtered = filtered.filter(...)]. *)
Definition searchStep (searchTerm : string) (filtered : list Incident.t)
  : list Incident.t :=
  if Js.truthy searchTerm
  then List.filter (matchesSearch searchTerm) filtered
  else filtered.

(** [if (statusFilter !== 'all') filtered = filtered.filter(...)]. *)
Definition statusStep (statusFilter : string) (filtered : list Incident.t)
  : list Incident.t :=
  if negb (String.eqb statusFilter "all")
  then List.filter (matchesStatus statusFilter) filtered
  else filtered.

(** [filterIncidents]: the value handed to [setFilteredIncidents], as
    a function of the three pieces of state it reads. *)
Definition filterIncidents (incidents : list Incident.t)
    (searchTerm statusFilter : string) : list Incident.t :=
  let filtered := incidents in
  let filtered := searchStep searchTerm filtered in
  let filtered := statusStep statusFilter filtered in
  filtered.

End Filter.

(** *** Rendering *)

(** The markup a component returns: elements with their properties and
    children, and text.  Event handlers are not markup; the click handler
    of a row is [rowClick] below. *)
#[warnings="-register-all"]
Inductive Node : Type :=
| El (tag : string) (props : list (string * string)) (children : list Node)
| Txt (text : string).

Definition className (c : string) : string * string := ("className", c).

(** [onClick={() => onSelectIncident?.(incident)}]: the optional callback
    receives the whole incident record. *)
Definition rowClick {R : Type} (onSelectIncident : option (Incident.t -> R))
    (incident : Incident.t) : option R :=
  option_map (fun f => f incident) onSelectIncident.

Section Render.

(** [new Date(d).toLocaleDateString('es-ES', {...})] of the runtime. *)
Variable toLocaleDateString : string -> string.

(** [profile?.role === 'authority']. *)
Definition is_authority (profile : option Profile.t) : bool :=
  match profile with
  | Some p => String.eqb (role_str (Profile.role p)) "authority"
  | None => false
  end.

(** [profile?.role === 'authority' && incident.profiles]: the joined
    reporter, when the viewer is an authority. *)
Definition reporterShown (profile : option Profile.t) (incident : Incident.t)
  : option Profile.t :=
  if is_authority profile then Incident.profiles incident else None.

(** One element of [filteredIncidents.map(...)]. *)
Definition renderRow (profile : option Profile.t) (incident : Incident.t) : Node :=
  El "div"
    [("key", Incident.id incident);
     className "bg-white border border-gray-200 rounded-lg p-6 hover:shadow-md transition-shadow cursor-pointer"]
    [El "div" [className "flex items-start justify-between mb-3"]
       [El "div" [className "flex-1"]
          [El "div" [className "flex items-center gap-3 mb-2"]
             [El "span"
                [className "px-3 py-1 rounded-full text-xs font-semibold";
                 ("style.backgroundColor",
                  (Category.color (Incident.incident_categories incident) ++ "20")%string);
                 ("style.color", Category.color (Incident.incident_categories incident))]
                [Txt (Category.name (Incident.incident_categories incident))];
              El "span"
                [className ("px-3 py-1 rounded-full text-xs font-semibold "
                            ++ statusColors (Incident.status incident))%string]
                [Txt (statusLabels (Incident.status incident))];
              El "span"
                [className ("px-3 py-1 rounded-full text-xs font-semibold "
                            ++ priorityColors (Incident.priority incident))%string]
                [Txt (priorityLabels (Incident.priority incident))]];
           El "h3" [className "text-lg font-semibold text-gray-900 mb-2"]
             [Txt (Incident.title incident)];
           El "p" [className "text-gray-600 text-sm line-clamp-2"]
             [Txt (Incident.description incident)]]];
     El "div" [className "flex items-center gap-6 text-sm text-gray-500"]
       ((match Incident.address incident with
         | Some a =>
             if Js.truthy a
             then [El "div" [className "flex items-center gap-1"]
                     [El "MapPin" [className "w-4 h-4"] [];
                      El "span" [] [Txt a]]]
             else []
         | None => []
         end)
        ++ [El "div" [className "flex items-center gap-1"]
              [El "Clock" [className "w-4 h-4"] [];
               El "span" [] [Txt (toLocaleDateString (Incident.incident_date incident))]]]
        ++ (match reporterShown profile incident with
            | Some reporter =>
                [El "div" [className "text-xs"]
                   [Txt "Reportado por: "; Txt (Profile.full_name reporter)]]
            | None => []
            end))].

(** The list part of the component:
    [filteredIncidents.length === 0 ? <empty state> : <rows>]. *)
Definition renderList (profile : option Profile.t)
    (filteredIncidents : list Incident.t) : Node :=
  match filteredIncidents with
  | [] =>
      El "div" [className "text-center py-12"]
        [El "AlertCircle" [className "w-16 h-16 text-gray-400 mx-auto mb-4"] [];
         El "p" [className "text-gray-600 text-lg"]
           [Txt "No se encontraron incidencias"]]
  | _ :: _ =>
      El "div" [className "space-y-4"]
        (List.map (renderRow profile) filteredIncidents)
  end.

End Render.

End IncidentList.

(** ** Backend client *)

(** A JavaScript error value; only its [message] is ever read. *)
Module JsError.
Record t : Type := mk { message : option string }.
End JsError.

(** [new Error(msg)]. *)
Definition new_Error (msg : string) : JsError.t := JsError.mk (Some msg).

Module User.
(** [User] of the backend client; the component reads its [id]. *)
Record t : Type := mk { id : string; email : string }.
End User.

Module Session.
(** [Session] of the backend client: the credential and its user. *)
Record t : Type := mk { access_token : string; user : User.t }.
End Session.

(** The [{ data, error }] object every backend request resolves to. *)
Module Response.
Record t (A : Type) : Type := mk { data : A; error : option JsError.t }.
Arguments mk {A} _ _.
Arguments data {A} _.
Arguments error {A} _.
End Response.

Module AuthData.
(** [data] of [auth.signUp]. *)
Record t : Type := mk { user : option User.t; session : option Session.t }.
End AuthData.

Module ExistingProfile.
(** A row of [select('id, is_deleted')]. *)
Record t : Type := mk { id : string; is_deleted : bool }.
End ExistingProfile.

Module Values.
(** The object given to [update] or [insert] on [profiles]: a column is
    written when it is present in the object.  For the two nullable
    columns the value written may itself be [null]. *)
Record t : Type := mk {
  id : option string;
  email : option string;
  full_name : option string;
  phone : option (option string);
  role : option Role;
  is_deleted : option bool;
  deleted_at : option (option string)
}.

Definition present {A : Type} (name : string) (v : option A) : list string :=
  match v with
  | Some _ => [name]
  | None => []
  end.

(** The columns an object writes. *)
Definition columns (v : t) : list string :=
  present "id" (id v) ++ present "email" (email v)
  ++ present "full_name" (full_name v) ++ present "phone" (phone v)
  ++ present "role" (role v) ++ present "is_deleted" (is_deleted v)
  ++ present "deleted_at" (deleted_at v).
End Values.

(** The requests the session manager sends, indexed by the type of what
    they resolve to. *)
Inductive Supabase : Type -> Type :=
| auth_getSession : Supabase (option Session.t)
| profiles_select_by_id (userId : string)
    : Supabase (Response.t (option Profile.t))
| profiles_select_id_is_deleted_by_email (email : string)
    : Supabase (Response.t (option ExistingProfile.t))
| auth_signUp (email password : string) : Supabase (Response.t AuthData.t)
| profiles_update_by_id (values : Values.t) (id : string)
    : Supabase (Response.t unit)
| profiles_insert (values : Values.t) : Supabase (Response.t unit).

(** A request, whatever it resolves to. *)
Inductive Request : Type :=
| Req {X : Type} (c : Supabase X).

(** Requests that change what the backend stores. *)
Definition is_mutation (q : Request) : bool :=
  match q with
  | Req auth_getSession => false
  | Req (profiles_select_by_id _) => false
  | Req (profiles_select_id_is_deleted_by_email _) => false
  | Req (auth_signUp _ _) => true
  | Req (profiles_update_by_id _ _) => true
  | Req (profiles_insert _) => true
  end.

(** ** Session manager *)

Module AuthState.
(** The four pieces of React state of [AuthProvider]. *)
Record t : Type := mk {
  user : option User.t;
  profile : option Profile.t;
  session : option Session.t;
  loading : bool
}.

(** The [useState] initial values. *)
Definition initial : t := mk None None None true.
End AuthState.

(** The state setters. *)
Inductive Setter : Type :=
| setUser (u : option User.t)
| setProfile (p : option Profile.t)
| setSession (s : option Session.t)
| setLoading (b : bool).

Definition apply_setter (s : Setter) (st : AuthState.t) : AuthState.t :=
  match s with
  | setUser u =>
      AuthState.mk u (AuthState.profile st) (AuthState.session st) (AuthState.loading st)
  | setProfile p =>
      AuthState.mk (AuthState.user st) p (AuthState.session st) (AuthState.loading st)
  | setSession s =>
      AuthState.mk (AuthState.user st) (AuthState.profile st) s (AuthState.loading st)
  | setLoading b =>
      AuthState.mk (AuthState.user st) (AuthState.profile st) (AuthState.session st) b
  end.

(** Asynchronous code of the component: it returns, throws, awaits a
    backend request, sets a piece of state or logs an error. *)
Inductive Prog (A : Type) : Type :=
| Ret (a : A)
| Throw (e : JsError.t)
| Await {X : Type} (c : Supabase X) (k : X -> Prog A)
| SetState (s : Setter) (k : Prog A)
| ConsoleError (msg : string) (e : JsError.t) (k : Prog A).

Arguments Ret {A} _.
Arguments Throw {A} _.
Arguments Await {A X} _ _.
Arguments SetState {A} _ _.
Arguments ConsoleError {A} _ _ _.

Fixpoint bind {A B : Type} (p : Prog A) (f : A -> Prog B) : Prog B :=
  match p with
  | Ret a => f a
  | Throw e => Throw e
  | Await c k => Await c (fun x => bind (k x) f)
  | SetState s k => SetState s (bind k f)
  | ConsoleError msg e k => ConsoleError msg e (bind k f)
  end.

(** [try { p } catch (error) { h error }]. *)
Fixpoint try_catch {A : Type} (p : Prog A) (h : JsError.t -> Prog A) : Prog A :=
  match p with
  | Ret a => Ret a
  | Throw e => h e
  | Await c k => Await c (fun x => try_catch (k x) h)
  | SetState s k => SetState s (try_catch k h)
  | ConsoleError msg e k => ConsoleError msg e (try_catch k h)
  end.

(** [try { p } finally { f }]: [f] runs on both exits, and the exit of [p]
    stands unless [f] itself throws. *)
Fixpoint try_finally {A : Type} (p : Prog A) (f : Prog unit) : Prog A :=
  match p with
  | Ret a => bind f (fun _ => Ret a)
  | Throw e => bind f (fun _ => Throw e)
  | Await c k => Await c (fun x => try_finally (k x) f)
  | SetState s k => SetState s (try_finally k f)
  | ConsoleError msg e k => ConsoleError msg e (try_finally k f)
  end.

Declare Scope prog_scope.
Delimit Scope prog_scope with prog.
Notation "x <- p ;; q" := (bind p (fun x => q))
  (at level 100, p at next level, right associativity) : prog_scope.
Notation "p ;; q" := (bind p (fun _ => q))
  (at level 100, right associativity) : prog_scope.
Local Open Scope prog_scope.

Definition await {X : Type} (c : Supabase X) : Prog X := Await c Ret.
Definition set (s : Setter) : Prog unit := SetState s (Ret tt).
Definition console_error (msg : string) (e : JsError.t) : Prog unit :=
  ConsoleError msg e (Ret tt).

(** [if (error) throw error;]. *)
Definition throw_if (error : option JsError.t) : Prog unit :=
  match error with
  | Some e => Throw e
  | None => Ret tt
  end.

Module AuthContext.

(** [loadProfile]. *)
Definition loadProfile (userId : string) : Prog unit :=
  try_finally
    (try_catch
       (r <- await (profiles_select_by_id userId) ;;
        throw_if (Response.error r) ;;
        set (setProfile (Response.data r)))
       (fun error => console_error "Error loading profile:" error))
    (set (setLoading false)).

(** [session?.user]. *)
Definition session_user (session : option Session.t) : option User.t :=
  option_map Session.user session.

(** The continuation of [supabase.auth.getSession()] in the effect run on
    mount. *)
Definition restoreSession : Prog unit :=
  session <- await auth_getSession ;;
  set (setSession session) ;;
  set (setUser (session_user session)) ;;
  match session_user session with
  | Some u => loadProfile (User.id u)
  | None => set (setLoading false)
  end.

(** The handler registered with [onAuthStateChange]; its first argument,
    the event name, is not used. *)
Definition onAuthStateChange (session : option Session.t) : Prog unit :=
  set (setSession session) ;;
  set (setUser (session_user session)) ;;
  match session_user session with
  | Some u => loadProfile (User.id u)
  | None =>
      set (setProfile None) ;;
      set (setLoading false)
  end.

(** The object of the [update] that revives a soft-deleted profile. *)
Definition reviveValues (fullName : string) (phone : option string) : Values.t :=
  {| Values.id := None;
     Values.email := None;
     Values.full_name := Some fullName;
     Values.phone := Some (Js.or_null phone);
     Values.role := None;
     Values.is_deleted := Some false;
     Values.deleted_at := Some None |}.

(** The object of the [insert] of a fresh profile. *)
Definition insertValues (userId email fullName : string) (phone : option string)
  : Values.t :=
  {| Values.id := Some userId;
     Values.email := Some email;
     Values.full_name := Some fullName;
     Values.phone := Some (Js.or_null phone);
     Values.role := Some citizen;
     Values.is_deleted := None;
     Values.deleted_at := None |}.

(** [existingProfile && !existingProfile.is_deleted]. *)
Definition is_active (existingProfile : option ExistingProfile.t) : bool :=
  match existingProfile with
  | Some p => negb (ExistingProfile.is_deleted p)
  | None => false
  end.

(** [signUp]; [phone] is the optional fourth argument. *)
Definition signUp (email password fullName : string) (phone : option string)
  : Prog unit :=
  try_catch
    (r <- await (profiles_select_id_is_deleted_by_email email) ;;
     let existingProfile := Response.data r in
     let checkError := Response.error r in
     throw_if checkError ;;
     (if is_active existingProfile
      then Throw (new_Error "Este correo electrónico ya está registrado")
      else Ret tt) ;;
     r' <- await (auth_signUp email password) ;;
     throw_if (Response.error r') ;;
     match AuthData.user (Response.data r') with
     | Some user =>
         match existingProfile with
         | Some (ExistingProfile.mk existing_id true) =>
             u <- await (profiles_update_by_id
                           (reviveValues fullName phone) existing_id) ;;
             throw_if (Response.error u)
         | _ =>
             i <- await (profiles_insert
                           (insertValues (User.id user) email fullName phone)) ;;
             throw_if (Response.error i)
         end
     | None => Ret tt
     end)
    (fun error =>
       Throw (new_Error (Js.or_else (JsError.message error) "Error al registrarse"))).

End AuthContext.

(** ** Running the component's code against a backend *)

(** A backend answers every request and moves to a new state of its own.
    Nothing is assumed about it. *)
Definition Backend (B : Type) : Type := forall X : Type, Supabase X -> B -> X * B.

Inductive Outcome (A : Type) : Type :=
| Returned (a : A)
| Thrown (e : JsError.t).

Arguments Returned {A} _.
Arguments Thrown {A} _.

Module Run.
(** What a run leaves behind: how the code ended, the React state, the
    state of the backend, the requests sent (in order) and the errors
    written to the console (in order). *)
Record t (A B : Type) : Type := mk {
  outcome : Outcome A;
  state : AuthState.t;
  backend : B;
  requests : list Request;
  console : list (string * JsError.t)
}.
Arguments mk {A B} _ _ _ _ _.
Arguments outcome {A B} _.
Arguments state {A B} _.
Arguments backend {A B} _.
Arguments requests {A B} _.
Arguments console {A B} _.
End Run.

Fixpoint run {A B : Type} (h : Backend B) (p : Prog A) (st : AuthState.t) (b : B)
  : Run.t A B :=
  match p with
  | Ret a => Run.mk (Returned a) st b [] []
  | Throw e => Run.mk (Thrown e) st b [] []
  | Await c k =>
      let '(x, b') := h _ c b in
      let r := run h (k x) st b' in
      Run.mk (Run.outcome r) (Run.state r) (Run.backend r)
             (Req c :: Run.requests r) (Run.console r)
  | SetState s k => run h k (apply_setter s st) b
  | ConsoleError msg e k =>
      let r := run h k st b in
      Run.mk (Run.outcome r) (Run.state r) (Run.backend r)
             (Run.requests r) ((msg, e) :: Run.console r)
  end.

(** ** A reference backend *)

Module Hosted.

(** Modelled from the spec: the hosted backend is not part of the
    repository; section 6 asks of it row storage with
    select-by-filter, [insert(table, record)] and
    [update(table, predicate, partial-record)] over the table
    [profiles], credential registration and the current session.  Here
    it is a table of rows, the registered users, the current session and
    an outage switch: during an outage every request is refused with the
    given error and nothing is stored. *)
Record t : Type := mk {
  profiles : list Profile.t;
  users : list User.t;
  current : option Session.t;
  outage : option JsError.t
}.

(** [maybeSingle()]: no row is [null], one row is that row, several rows
    are an error. *)
Definition maybeSingle {A : Type} (rows : list A) : Response.t (option A) :=
  match rows with
  | [] => Response.mk None None
  | [row] => Response.mk (Some row) None
  | _ :: _ :: _ =>
      Response.mk None
        (Some (new_Error "JSON object requested, multiple (or no) rows returned"))
  end.

(** Modelled from the spec: the backend's
    [update(table, predicate, partial-record)] of section 6, on one row.
    A partial record written over a row: the columns present replace the
    row's, the others stay. *)
Definition write (v : Values.t) (row : Profile.t) : Profile.t :=
  {| Profile.id := default (Profile.id row) (Values.id v);
     Profile.email := default (Profile.email row) (Values.email v);
     Profile.full_name := default (Profile.full_name row) (Values.full_name v);
     Profile.phone := default (Profile.phone row) (Values.phone v);
     Profile.role := default (Profile.role row) (Values.role v);
     Profile.is_deleted := default (Profile.is_deleted row) (Values.is_deleted v);
     Profile.deleted_at := default (Profile.deleted_at row) (Values.deleted_at v) |}.

(** Modelled from the spec: the backend's
    [update(table, predicate, partial-record)] of section 6 with the
    predicate [.eq('id', id)]: every row of that identifier is written
    over, in place. *)
Definition update (v : Values.t) (id : string) (rows : list Profile.t)
  : list Profile.t :=
  List.map (fun row => if String.eqb (Profile.id row) id then write v row else row)
           rows.

(** The row an [insert] adds: id, email and full name are required, the
    other columns have defaults. *)
Definition fresh_row (v : Values.t) : option Profile.t :=
  match Values.id v, Values.email v, Values.full_name v with
  | Some i, Some e, Some n =>
      Some {| Profile.id := i;
              Profile.email := e;
              Profile.full_name := n;
              Profile.phone := default None (Values.phone v);
              Profile.role := default citizen (Values.role v);
              Profile.is_deleted := default false (Values.is_deleted v);
              Profile.deleted_at := default None (Values.deleted_at v) |}
  | _, _, _ => None
  end.

Definition has_id (id : string) (row : Profile.t) : bool :=
  String.eqb (Profile.id row) id.

Definition has_email (email : string) (row : Profile.t) : bool :=
  String.eqb (Profile.email row) email.

Definition projection (row : Profile.t) : ExistingProfile.t :=
  ExistingProfile.mk (Profile.id row) (Profile.is_deleted row).

Definition refused {A : Type} (nothing : A) (e : JsError.t) : Response.t A :=
  Response.mk nothing (Some e).

Definition handle : Backend t :=
  fun X c =>
    match c in Supabase X return t -> X * t with
    | auth_getSession => fun db =>
        match outage db with
        | Some _ => (None, db)
        | None => (current db, db)
        end
    | profiles_select_by_id userId => fun db =>
        match outage db with
        | Some e => (refused None e, db)
        | None => (maybeSingle (List.filter (has_id userId) (profiles db)), db)
        end
    | profiles_select_id_is_deleted_by_email email => fun db =>
        match outage db with
        | Some e => (refused None e, db)
        | None =>
            (maybeSingle
               (List.map projection (List.filter (has_email email) (profiles db))),
             db)
        end
    | auth_signUp email password => fun db =>
        match outage db with
        | Some e => (refused (AuthData.mk None None) e, db)
        | None =>
            let user := User.mk ("user:" ++ email)%string email in
            (Response.mk (AuthData.mk (Some user) None) None,
             mk (profiles db) (users db ++ [user]) (current db) (outage db))
        end
    | profiles_update_by_id values id => fun db =>
        match outage db with
        | Some e => (refused tt e, db)
        | None =>
            (Response.mk tt None,
             mk (update values id (profiles db)) (users db) (current db) (outage db))
        end
    | profiles_insert values => fun db =>
        match outage db with
        | Some e => (refused tt e, db)
        | None =>
            match fresh_row values with
            | Some row =>
                if existsb (has_id (Profile.id row)) (profiles db)
                then (refused tt (new_Error "duplicate key value violates unique constraint"),
                      db)
                else (Response.mk tt None,
                      mk (profiles db ++ [row]) (users db) (current db) (outage db))
            | None =>
                (refused tt (new_Error "null value violates not-null constraint"), db)
            end
        end
    end.

End Hosted.

(** ** Sample data *)

Module Sample.

(** [toLowerCase] on the letters A to Z; other characters stay. *)
Definition lower_ascii (c : ascii) : ascii :=
  let n := nat_of_ascii c in
  if (65 <=? n)%nat && (n <=? 90)%nat then ascii_of_nat (n + 32) else c.

Fixpoint toLowerCase (s : string) : string :=
  match s with
  | EmptyString => EmptyString
  | String c s' => String (lower_ascii c) (toLowerCase s')
  end.

Definition ana : Profile.t :=
  Profile.mk "p-ana" "ana@chepen.pe" "Ana Torres" (Some "944111222") authority false None.

Definition luis : Profile.t :=
  Profile.mk "p-luis" "luis@chepen.pe" "Luis Rojas" None citizen false None.

(** A soft-deleted profile that used to be an authority. *)
Definition rosa : Profile.t :=
  Profile.mk "p-rosa" "rosa@chepen.pe" "Rosa Diaz" (Some "955000111") authority true
             (Some "2024-03-01T10:00:00Z").

Definition db : Hosted.t := Hosted.mk [ana; luis; rosa] [] None None.

Definition network_down : JsError.t := new_Error "Failed to fetch".

Definition luis_session : Session.t :=
  Session.mk "token-luis" (User.mk "p-luis" "luis@chepen.pe").

(** The React state while Ana, an authority, is signed in. *)
Definition ana_signed_in : AuthState.t :=
  AuthState.mk (Some (User.mk "p-ana" "ana@chepen.pe")) (Some ana)
               (Some (Session.mk "token-ana" (User.mk "p-ana" "ana@chepen.pe")))
               false.

Definition alumbrado : Category.t := Category.mk "c-1" "Alumbrado" "#f59e0b".

Definition incident (id title description : string) (address : option string)
    (status : Status) (reporter : option Profile.t) : Incident.t :=
  Incident.mk id title description address status medium
              "2024-05-02T08:30:00Z" "2024-05-02T09:00:00Z" "p-luis" "c-1"
              alumbrado reporter.

Definition poste : Incident.t :=
  incident "i-3" "Poste caido" "Bloquea la vereda" (Some "Av. Exequiel Gonzales 120")
           pending (Some luis).

Definition bache : Incident.t :=
  incident "i-2" "Bache profundo" "Frente al MERCADO" None resolved (Some luis).

Definition farola : Incident.t :=
  incident "i-1" "Farola apagada" "Sin luz desde ayer" None pending None.

End Sample.

(** ** Vocabulary of the specification *)

(** [t] occurs in [s]: [s] is some text, then [t], then some text. *)
Definition occurs (t s : string) : Prop :=
  exists pre post : string, s = (pre ++ t ++ post)%string.

Section SearchVocabulary.

Variable toLowerCase : string -> string.

(** The lowercased term occurs in the lowercased title, description or
    address; an absent address has nothing for the term to occur in. *)
Definition term_matches (searchTerm : string) (incident : Incident.t) : Prop :=
  occurs (toLowerCase searchTerm) (toLowerCase (Incident.title incident))
  \/ occurs (toLowerCase searchTerm) (toLowerCase (Incident.description incident))
  \/ exists a, Incident.address incident = Some a
               /\ occurs (toLowerCase searchTerm) (toLowerCase a).

End SearchVocabulary.

(** The incident has the status named by the (string) status filter. *)
Definition has_status (statusFilter : string) (incident : Incident.t) : Prop :=
  status_str (Incident.status incident) = statusFilter.

(** The same incident joined with another reporting profile. *)
Definition with_reporter (incident : Incident.t) (reporter : option Profile.t)
  : Incident.t :=
  {| Incident.id := Incident.id incident;
     Incident.title := Incident.title incident;
     Incident.description := Incident.description incident;
     Incident.address := Incident.address incident;
     Incident.status := Incident.status incident;
     Incident.priority := Incident.priority incident;
     Incident.incident_date := Incident.incident_date incident;
     Incident.created_at := Incident.created_at incident;
     Incident.user_id := Incident.user_id incident;
     Incident.category_id := Incident.category_id incident;
     Incident.incident_categories := Incident.incident_categories incident;
     Incident.profiles := reporter |}.

(** The error the specification calls [DuplicateAccount]: what [signUp]
    throws for an email that is already registered. *)
Definition DuplicateAccount : JsError.t :=
  new_Error "Este correo electrónico ya está registrado".

(** The error [signUp] throws for a backend error [e]. *)
Definition AuthFailure (e : JsError.t) : JsError.t :=
  new_Error (Js.or_else (JsError.message e) "Error al registrarse").

(** What a request writes to the table [profiles]. *)
Inductive ProfileWrite : Type :=
| Updated (id : string) (values : Values.t)
| Inserted (values : Values.t).

Definition profile_write (q : Request) : option ProfileWrite :=
  match q with
  | Req (profiles_update_by_id values id) => Some (Updated id values)
  | Req (profiles_insert values) => Some (Inserted values)
  | Req _ => None
  end.

(** The writes to [profiles] among some requests, in order. *)
Definition profile_writes (qs : list Request) : list ProfileWrite :=
  omap profile_write qs.

(** How [signUp] ends once the backend has answered its last request. *)
Definition ended (error : option JsError.t) : Outcome unit :=
  match error with
  | Some e => Thrown (AuthFailure e)
  | None => Returned tt
  end.

(** ** Session manager: the remaining operations *)

(** The requests of [signIn], [signOut] and [resetPassword].  Of what each
    resolves to only [error] is read. *)
Inductive AuthRequest : Type :=
| auth_signInWithPassword (email password : string)
| auth_signOut
| auth_resetPasswordForEmail (email redirectTo : string).

(** The part of the backend that answers them. *)
Definition AuthService (B : Type) : Type :=
  AuthRequest -> B -> option JsError.t * B.

Module Attempt.
(** What one of the three operations leaves behind: how it ended, the state
    of the backend and the requests sent. *)
Record t (B : Type) : Type := mk {
  outcome : Outcome unit;
  backend : B;
  sent : list AuthRequest
}.
Arguments mk {B} _ _ _.
Arguments outcome {B} _.
Arguments backend {B} _.
Arguments sent {B} _.
End Attempt.

Module AuthOperations.

Section Operations.

Context {B : Type} (h : AuthService B).

(** [signIn]. *)
Definition signIn (email password : string) (b : B) : Attempt.t B :=
  let '(error, b') := h (auth_signInWithPassword email password) b in
  Attempt.mk
    (match error with
     | Some e =>
         Thrown (new_Error (Js.or_else (JsError.message e) "Error al iniciar sesión"))
     | None => Returned tt
     end)
    b' [auth_signInWithPassword email password].

(** [signOut]. *)
Definition signOut (b : B) : Attempt.t B :=
  let '(error, b') := h auth_signOut b in
  Attempt.mk
    (match error with
     | Some e =>
         Thrown (new_Error (Js.or_else (JsError.message e) "Error al cerrar sesión"))
     | None => Returned tt
     end)
    b' [auth_signOut].

(** [resetPassword]; [origin] is [window.location.origin]. *)
Definition resetPassword (origin email : string) (b : B) : Attempt.t B :=
  let redirectTo := (origin ++ "/#/auth/reset")%string in
  let '(error, b') := h (auth_resetPasswordForEmail email redirectTo) b in
  Attempt.mk
    (match error with
     | Some e =>
         Thrown (new_Error (Js.or_else (JsError.message e)
                                       "Error al enviar correo de recuperación"))
     | None => Returned tt
     end)
    b' [auth_resetPasswordForEmail email redirectTo].

End Operations.

(** [useAuth]: [context] is what [useContext(AuthContext)] gives, absent
    outside an [AuthProvider]. *)
Definition useAuth {C : Type} (context : option C) : Outcome C :=
  match context with
  | None => Thrown (new_Error "useAuth must be used within an AuthProvider")
  | Some c => Returned c
  end.

End AuthOperations.

(** ** Session manager: handlers on the event loop *)

Module EventLoop.

(** A handler stopped at an [await]: the request it has sent and the code
    that runs once the request is answered. *)
Inductive Task : Type :=
| task {X : Type} (c : Supabase X) (k : X -> Prog unit).

(** Where code stops when it runs without interruption: at its end, or at
    its next [await]. *)
Inductive Stop : Type :=
| Ended (o : Outcome unit)
| Waiting (t : Task).

Module Advance.
(** What code leaves when it stops: where it stopped, the React state and
    what it wrote to the console. *)
Record t : Type := mk {
  stop : Stop;
  state : AuthState.t;
  console : list (string * JsError.t)
}.
End Advance.

(** Code run from [st] up to its end or its next [await]. *)
Fixpoint advance (p : Prog unit) (st : AuthState.t) : Advance.t :=
  match p with
  | Ret a => Advance.mk (Ended (Returned a)) st []
  | Throw e => Advance.mk (Ended (Thrown e)) st []
  | Await c k => Advance.mk (Waiting (task c k)) st []
  | SetState s k => advance k (apply_setter s st)
  | ConsoleError msg e k =>
      let a := advance k st in
      Advance.mk (Advance.stop a) (Advance.state a) ((msg, e) :: Advance.console a)
  end.

(** The provider on the event loop: its React state, the backend, the
    handlers waiting for an answer (oldest first), the requests sent so
    far, the console, and the errors handlers ended with. *)
Record t (B : Type) : Type := mk {
  state : AuthState.t;
  backend : B;
  pending : list Task;
  sent : list Request;
  console : list (string * JsError.t);
  rejected : list JsError.t
}.
Arguments mk {B} _ _ _ _ _ _.
Arguments state {B} _.
Arguments backend {B} _.
Arguments pending {B} _.
Arguments sent {B} _.
Arguments console {B} _.
Arguments rejected {B} _.

Definition start {B : Type} (st : AuthState.t) (b : B) : t B := mk st b [] [] [] [].

(** What the event loop runs next: the callback of [onAuthStateChange] for
    a notification, or the rest of the waiting handler number [i] (from 0,
    oldest first) because its request has been answered.  Answers come in
    any order. *)
Inductive Event : Type :=
| Notified (session : option Session.t)
| Answered (i : nat).

(** The loop after a piece of code has stopped: a handler that stopped at
    an [await] has sent its request and waits with the others. *)
Definition stopped {B : Type} (a : Advance.t) (l : t B) (b : B) (others : list Task)
  : t B :=
  mk (Advance.state a) b
     (others ++ match Advance.stop a with
                | Waiting t => [t]
                | Ended _ => []
                end)
     (sent l ++ match Advance.stop a with
                | Waiting (task c _) => [Req c]
                | Ended _ => []
                end)
     (console l ++ Advance.console a)
     (rejected l ++ match Advance.stop a with
                    | Ended (Thrown e) => [e]
                    | _ => []
                    end).

(** One turn of the loop.  The callback starts its async function, which
    runs up to its first [await] and returns; an answer resumes the one
    handler that was waiting for it.  The backend answers a request when
    the answer is delivered. *)
Definition step {B : Type} (h : Backend B) (l : t B) (e : Event) : t B :=
  match e with
  | Notified session =>
      stopped (advance (AuthContext.onAuthStateChange session) (state l))
              l (backend l) (pending l)
  | Answered i =>
      match pending l !! i with
      | Some (task c k) =>
          let '(x, b') := h _ c (backend l) in
          stopped (advance (k x) (state l)) l b' (delete i (pending l))
      | None => l
      end
  end.

Definition run_events {B : Type} (h : Backend B) (l : t B) (events : list Event) : t B :=
  fold_left (step h) events l.

(** A waiting handler that, whatever the answer, ends without throwing,
    leaves the session and the user as they are and sets [loading] to
    false. *)
Definition loads_profile (t : Task) : Prop :=
  match t with
  | task c k =>
      forall x st,
        Advance.stop (advance (k x) st) = Ended (Returned tt)
        /\ AuthState.session (Advance.state (advance (k x) st)) = AuthState.session st
        /\ AuthState.user (Advance.state (advance (k x) st)) = AuthState.user st
        /\ AuthState.loading (Advance.state (advance (k x) st)) = false
  end.

(** A loop in which every waiting handler is such a profile load, no
    handler has ended with an error and no request sent changes what the
    backend stores. *)
Definition only_loads {B : Type} (l : t B) : Prop :=
  Forall loads_profile (pending l)
  /\ rejected l = []
  /\ Forall (fun q => is_mutation q = false) (sent l).

(** No handler is left waiting with [loading] still true. *)
Definition settling {B : Type} (l : t B) : Prop :=
  AuthState.loading (state l) = false \/ pending l <> [].

End EventLoop.

(** ** Incident browser: the state of the component *)

Module Browser.

(** The five pieces of React state of [IncidentList]. *)
Record t : Type := mk {
  incidents : list Incident.t;
  filteredIncidents : list Incident.t;
  loading : bool;
  searchTerm : string;
  statusFilter : string
}.

(** The [useState] initial values. *)
Definition initial : t := mk [] [] true "" "all".

(** [loadIncidents], given what the select on [incidents] resolved to: the
    new state and what was written to the console.  [data || []] is the
    empty list for a [null] data. *)
Definition loadIncidents (r : Response.t (option (list Incident.t))) (st : t)
  : t * list (string * JsError.t) :=
  match Response.error r with
  | Some err =>
      (mk (incidents st) (filteredIncidents st) false (searchTerm st) (statusFilter st),
       [("Error loading incidents:", err)])
  | None =>
      (mk (default [] (Response.data r)) (filteredIncidents st) false
          (searchTerm st) (statusFilter st),
       [])
  end.

Section Effects.

Variable toLowerCase : string -> string.

(** The effect on [incidents, searchTerm, statusFilter]: it runs
    [filterIncidents], which sets [filteredIncidents]. *)
Definition filterEffect (st : t) : t :=
  mk (incidents st)
     (IncidentList.filterIncidents toLowerCase (incidents st) (searchTerm st)
                                   (statusFilter st))
     (loading st) (searchTerm st) (statusFilter st).

(** What happens to the mounted component: its fetch settles, the user
    types in the search box, the user picks a status. *)
Inductive Event : Type :=
| Loaded (r : Response.t (option (list Incident.t)))
| SearchTyped (value : string)
| StatusChosen (value : string).

(** The state once an event and the effect it triggers have run.  (React
    skips the effect when no dependency changed; running it then changes
    nothing.) *)
Definition step (st : t) (e : Event) : t :=
  filterEffect
    match e with
    | Loaded r => fst (loadIncidents r st)
    | SearchTyped value =>
        mk (incidents st) (filteredIncidents st) (loading st) value (statusFilter st)
    | StatusChosen value =>
        mk (incidents st) (filteredIncidents st) (loading st) (searchTerm st) value
    end.

(** The state after mounting: the filter effect has run on the initial
    values and the fetch is pending. *)
Definition mounted : t := filterEffect initial.

Definition after (events : list Event) : t := fold_left step events mounted.

End Effects.

Definition is_loaded (e : Event) : bool :=
  match e with
  | Loaded _ => true
  | _ => false
  end.

(** A fetch that did not fail. *)
Definition is_fetched (e : Event) : bool :=
  match e with
  | Loaded r =>
      match Response.error r with
      | Some _ => false
      | None => true
      end
  | _ => false
  end.

(** What a history of events leaves to see: the rows of the last fetch
    that did not fail, the last text typed and the last status chosen. *)
Definition fetchedBy (rows : list Incident.t) (e : Event) : list Incident.t :=
  match e with
  | Loaded r =>
      match Response.error r with
      | Some _ => rows
      | None => default [] (Response.data r)
      end
  | _ => rows
  end.

Definition typedBy (term : string) (e : Event) : string :=
  match e with
  | SearchTyped value => value
  | _ => term
  end.

Definition chosenBy (status : string) (e : Event) : string :=
  match e with
  | StatusChosen value => value
  | _ => status
  end.

Definition lastFetched (events : list Event) : list Incident.t :=
  fold_left fetchedBy events [].

Definition lastTyped (events : list Event) : string :=
  fold_left typedBy events "".

Definition lastChosen (events : list Event) : string :=
  fold_left chosenBy events "all".

Section Render.

Variable toLocaleDateString : string -> string.

(** The markup returned while [loading]. *)
Definition spinner : IncidentList.Node :=
  IncidentList.El "div"
    [IncidentList.className "flex items-center justify-center py-12"]
    [IncidentList.El "div"
       [IncidentList.className
          "animate-spin rounded-full h-12 w-12 border-b-2 border-blue-600"]
       []].

(** The search box and the status select. *)
Definition controls (st : t) : IncidentList.Node :=
  IncidentList.El "div" [IncidentList.className "mb-6 space-y-4"]
    [IncidentList.El "div" [IncidentList.className "relative"]
       [IncidentList.El "Search"
          [IncidentList.className
             "absolute left-3 top-1/2 transform -translate-y-1/2 text-gray-400 w-5 h-5"]
          [];
        IncidentList.El "input"
          [("type", "text");
           ("placeholder", "Buscar por título, descripción o dirección...");
           ("value", searchTerm st);
           IncidentList.className
             "w-full pl-10 pr-4 py-3 border border-gray-300 rounded-lg focus:ring-2 focus:ring-blue-500 focus:border-transparent"]
          []];
     IncidentList.El "div" [IncidentList.className "flex items-center gap-3"]
       [IncidentList.El "Filter" [IncidentList.className "w-5 h-5 text-gray-500"] [];
        IncidentList.El "select"
          [("value", statusFilter st);
           IncidentList.className
             "px-4 py-2 border border-gray-300 rounded-lg focus:ring-2 focus:ring-blue-500 focus:border-transparent"]
          [IncidentList.El "option" [("value", "all")]
             [IncidentList.Txt "Todos los estados"];
           IncidentList.El "option" [("value", "pending")]
             [IncidentList.Txt "Pendientes"];
           IncidentList.El "option" [("value", "in_progress")]
             [IncidentList.Txt "En Proceso"];
           IncidentList.El "option" [("value", "resolved")]
             [IncidentList.Txt "Resueltas"];
           IncidentList.El "option" [("value", "rejected")]
             [IncidentList.Txt "Rechazadas"]]]].

(** What the component returns. *)
Definition render (profile : option Profile.t) (st : t) : IncidentList.Node :=
  if loading st
  then spinner
  else IncidentList.El "div" []
         [controls st;
          IncidentList.renderList toLocaleDateString profile (filteredIncidents st)].

End Render.

End Browser.

(** The write to [profiles] that [signUp] sends once registration has
    returned a user: the revival of the soft-deleted profile the lookup
    found, otherwise the insert of a fresh profile. *)
Definition profileWrite (email fullName : string) (phone : option string)
    (existingProfile : option ExistingProfile.t) (user : User.t)
  : Supabase (Response.t unit) :=
  match existingProfile with
  | Some (ExistingProfile.mk existing_id true) =>
      profiles_update_by_id (AuthContext.reviveValues fullName phone) existing_id
  | _ =>
      profiles_insert (AuthContext.insertValues (User.id user) email fullName phone)
  end.

(** ** A scripted backend *)

Module Scripted.

(** A backend without state that gives the same answer to every lookup by
    email, to every registration and to every write to [profiles]; it has
    no session and no profile to return by identifier. *)
Record t : Type := mk {
  lookup : Response.t (option ExistingProfile.t);
  registration : Response.t AuthData.t;
  written : Response.t unit
}.

Definition handle (s : t) : Backend unit :=
  fun X c =>
    match c in Supabase X return unit -> X * unit with
    | auth_getSession => fun u => (None, u)
    | profiles_select_by_id _ => fun u => (Response.mk None None, u)
    | profiles_select_id_is_deleted_by_email _ => fun u => (lookup s, u)
    | auth_signUp _ _ => fun u => (registration s, u)
    | profiles_update_by_id _ _ => fun u => (written s, u)
    | profiles_insert _ => fun u => (written s, u)
    end.

Definition no_row : Response.t (option ExistingProfile.t) := Response.mk None None.

Definition eva : User.t := User.mk "u-eva" "eva@chepen.pe".

Definition registered : Response.t AuthData.t :=
  Response.mk (AuthData.mk (Some eva) None) None.

Definition no_user : Response.t AuthData.t :=
  Response.mk (AuthData.mk None None) None.

Definition accepted : Response.t unit := Response.mk tt None.

Definition failed (message : option string) {A : Type} (nothing : A) : Response.t A :=
  Response.mk nothing (Some (JsError.mk message)).

End Scripted.

(** ** More vocabulary *)

(** The children of an element. *)
Definition children (n : IncidentList.Node) : list IncidentList.Node :=
  match n with
  | IncidentList.El _ _ c => c
  | IncidentList.Txt _ => []
  end.

(** A property of an element, by name. *)
Definition prop (name : string) (n : IncidentList.Node) : option string :=
  match n with
  | IncidentList.El _ props _ =>
      option_map snd (List.find (fun kv => String.eqb (fst kv) name) props)
  | IncidentList.Txt _ => None
  end.

(** The keys of the children of an element, in order. *)
Definition childKeys (n : IncidentList.Node) : list string :=
  omap (prop "key") (children n).

(** The line at the bottom of a row: address, date, reporter. *)
Definition infoLine (row : IncidentList.Node) : list IncidentList.Node :=
  match children row with
  | [_; info] => children info
  | _ => []
  end.

(** The same incident with another address. *)
Definition with_address (incident : Incident.t) (address : option string)
  : Incident.t :=
  {| Incident.id := Incident.id incident;
     Incident.title := Incident.title incident;
     Incident.description := Incident.description incident;
     Incident.address := address;
     Incident.status := Incident.status incident;
     Incident.priority := Incident.priority incident;
     Incident.incident_date := Incident.incident_date incident;
     Incident.created_at := Incident.created_at incident;
     Incident.user_id := Incident.user_id incident;
     Incident.category_id := Incident.category_id incident;
     Incident.incident_categories := Incident.incident_categories incident;
     Incident.profiles := Incident.profiles incident |}.

(** An error with a message that is not empty. *)
Definition has_message (e : JsError.t) : Prop :=
  exists m : string, JsError.message e = Some m /\ Js.truthy m = true.

(** An outcome that, when it is a throw, throws an error with a message. *)
Definition throws_with_message {A : Type} (o : Outcome A) : Prop :=
  match o with
  | Thrown e => has_message e
  | Returned _ => True
  end.

(** The request sequences of [signUp]: the lookup; then the registration;
    then one write to [profiles], an update or an insert. *)
Inductive SignUpRequests (email password : string) : list Request -> Prop :=
| lookup_only :
    SignUpRequests email password
      [Req (profiles_select_id_is_deleted_by_email email)]
| lookup_registration :
    SignUpRequests email password
      [Req (profiles_select_id_is_deleted_by_email email);
       Req (auth_signUp email password)]
| lookup_registration_update (values : Values.t) (id : string) :
    SignUpRequests email password
      [Req (profiles_select_id_is_deleted_by_email email);
       Req (auth_signUp email password);
       Req (profiles_update_by_id values id)]
| lookup_registration_insert (values : Values.t) :
    SignUpRequests email password
      [Req (profiles_select_id_is_deleted_by_email email);
       Req (auth_signUp email password);
       Req (profiles_insert values)].

(** * Properties *)

(** ** Strings *)

Lemma prefix_occurs_at_start (t s : string) :
  String.prefix t s = true <-> exists post, s = (t ++ post)%string.
Proof.
  revert s. induction t as [|c t IH]; intros s.
  - split; [intros _; exists s; reflexivity | intros _; destruct s; reflexivity].
  - destruct s as [|d s]; simpl.
    + split; [discriminate | intros [post H]; discriminate].
    + destruct (Ascii.ascii_dec c d) as [->|Hne].
      * rewrite IH. split; intros [post H]; exists post.
        -- rewrite H. reflexivity.
        -- change (String d s = String d (t ++ post)) in H. congruence.
      * split; [discriminate | intros [post H]].
        change (String d s = String c (t ++ post)) in H. congruence.
Qed.

Lemma includes_occurs (s t : string) :
  Js.includes s t = true <-> occurs t s.
Proof.
  unfold occurs. induction s as [|c s IH]; cbn [Js.includes].
  - rewrite orb_false_r, prefix_occurs_at_start. split.
    + intros [post H]. exists EmptyString, post. exact H.
    + intros ([|d pre] & post & H); [exists post; exact H | discriminate].
  - rewrite orb_true_iff, prefix_occurs_at_start, IH. split.
    + intros [[post H] | (pre & post & H)].
      * exists EmptyString, post. exact H.
      * exists (String c pre), post. rewrite H. reflexivity.
    + intros ([|d pre] & post & H).
      * left. exists post. exact H.
      * right. exists pre, post.
        change (String c s = String d (pre ++ t ++ post)) in H. congruence.
Qed.

Lemma occurs_empty (s : string) : occurs EmptyString s.
Proof. exists EmptyString, s. reflexivity. Qed.

Lemma truthy_false_empty (s : string) : Js.truthy s = false <-> s = EmptyString.
Proof. destruct s; simpl; split; congruence. Qed.

(** ** Lists *)

Lemma filter_swap {A : Type} (p q : A -> bool) (l : list A) :
  List.filter p (List.filter q l) = List.filter q (List.filter p l).
Proof.
  induction l as [|x l IH]; simpl; [reflexivity|].
  destruct (q x) eqn:Hq, (p x) eqn:Hp; simpl; rewrite ?Hq, ?Hp, IH; reflexivity.
Qed.

Lemma filter_sublist_of {A : Type} (p : A -> bool) (l : list A) :
  sublist (List.filter p l) l.
Proof.
  induction l as [|x l IH]; simpl; [constructor|].
  destruct (p x); [apply sublist_skip | apply sublist_cons]; exact IH.
Qed.

Lemma filter_greatest_sublist {A : Type} (p : A -> bool) (k l : list A) :
  sublist k l -> Forall (fun x => p x = true) k -> sublist k (List.filter p l).
Proof.
  induction 1 as [|x k l Hkl IH|x k l Hkl IH]; intros Hall; simpl.
  - constructor.
  - inversion Hall as [|? ? Hx Hk]; subst. rewrite Hx.
    apply sublist_skip, IH, Hk.
  - destruct (p x); [apply sublist_cons|]; apply IH, Hall.
Qed.

(** ** Incident browser: the filter *)

Lemma matchesStatus_has_status (statusFilter : string) (incident : Incident.t) :
  IncidentList.matchesStatus statusFilter incident = true
  <-> has_status statusFilter incident.
Proof. apply String.eqb_eq. Qed.

Lemma statusStep_all (incidents : list Incident.t) :
  IncidentList.statusStep "all" incidents = incidents.
Proof. reflexivity. Qed.

Lemma statusStep_concrete (statusFilter : string) (incidents : list Incident.t) :
  statusFilter <> "all" ->
  IncidentList.statusStep statusFilter incidents
  = List.filter (IncidentList.matchesStatus statusFilter) incidents.
Proof.
  intros H. unfold IncidentList.statusStep.
  apply String.eqb_neq in H. rewrite H. reflexivity.
Qed.

Lemma In_statusStep (statusFilter : string) (incidents : list Incident.t)
    (i : Incident.t) :
  In i (IncidentList.statusStep statusFilter incidents)
  <-> In i incidents /\ (statusFilter = "all" \/ has_status statusFilter i).
Proof.
  unfold IncidentList.statusStep. destruct (statusFilter =? "all")%string eqn:He; simpl.
  - apply String.eqb_eq in He. tauto.
  - apply String.eqb_neq in He.
    rewrite filter_In, matchesStatus_has_status. tauto.
Qed.

Section FilterFacts.

Import IncidentList.
Variable toLowerCase : string -> string.

Lemma matchesSearch_term_matches (searchTerm : string) (incident : Incident.t) :
  matchesSearch toLowerCase searchTerm incident = true
  <-> term_matches toLowerCase searchTerm incident.
Proof.
  unfold IncidentList.matchesSearch, term_matches.
  rewrite !orb_true_iff, !includes_occurs.
  destruct (Incident.address incident) as [a|]; simpl.
  - rewrite includes_occurs. split.
    + intros [H|[H|H]]; eauto.
    + intros [H|[H|(a' & Ha & H)]]; auto. right; right. congruence.
  - split.
    + intros [H|[H|H]]; auto. discriminate.
    + intros [H|[H|(a' & Ha & H)]]; auto. discriminate.
Qed.

Lemma searchStep_empty (incidents : list Incident.t) :
  searchStep toLowerCase "" incidents = incidents.
Proof. reflexivity. Qed.

Lemma steps_commute (searchTerm statusFilter : string) (incidents : list Incident.t) :
  statusStep statusFilter (searchStep toLowerCase searchTerm incidents)
  = searchStep toLowerCase searchTerm (statusStep statusFilter incidents).
Proof.
  unfold IncidentList.searchStep, statusStep.
  destruct (Js.truthy searchTerm), (negb (statusFilter =? "all")%string);
    auto using filter_swap.
Qed.

Lemma In_searchStep (searchTerm : string) (incidents : list Incident.t)
    (i : Incident.t) :
  In i (searchStep toLowerCase searchTerm incidents)
  <-> In i incidents /\ (searchTerm = "" \/ term_matches toLowerCase searchTerm i).
Proof.
  unfold IncidentList.searchStep. destruct (Js.truthy searchTerm) eqn:Ht.
  - rewrite filter_In, matchesSearch_term_matches.
    assert (searchTerm <> "") by (intros ->; discriminate). tauto.
  - apply truthy_false_empty in Ht. tauto.
Qed.

End FilterFacts.

(** C4. The text filter keeps an incident exactly when the lowercased
    search term occurs in its lowercased title, description or address.
    With [filterIncidents] and the status filter at "all", the result is
    that of the text step; an incident of the list is in the result if and
    only if the term matches it; when its address is absent and the term is
    not empty, if and only if the term occurs in the title or in the
    description; and the empty term keeps the whole list.  The runtime's
    [toLowerCase] is any function that maps the empty string to itself. *)
Theorem text_filter_keeps (toLowerCase : string -> string)
    (lower_empty : toLowerCase "" = "")
    (searchTerm : string) (incidents : list Incident.t) (incident : Incident.t) :
  IncidentList.filterIncidents toLowerCase incidents searchTerm "all"
  = IncidentList.searchStep toLowerCase searchTerm incidents
  /\ (In incident (IncidentList.searchStep toLowerCase searchTerm incidents)
      <-> In incident incidents /\ term_matches toLowerCase searchTerm incident)
  /\ (Incident.address incident = None -> searchTerm <> "" ->
      (In incident (IncidentList.searchStep toLowerCase searchTerm incidents)
       <-> In incident incidents
           /\ (occurs (toLowerCase searchTerm) (toLowerCase (Incident.title incident))
               \/ occurs (toLowerCase searchTerm)
                         (toLowerCase (Incident.description incident)))))
  /\ IncidentList.searchStep toLowerCase "" incidents = incidents.
Proof.
  split; [reflexivity|].
  assert (Hin : In incident (IncidentList.searchStep toLowerCase searchTerm incidents)
                <-> In incident incidents /\ term_matches toLowerCase searchTerm incident).
  { rewrite In_searchStep. split; [|tauto].
    intros [Hi [->|Hm]]; split; auto.
    left. rewrite lower_empty. apply occurs_empty. }
  split; [exact Hin|]. split; [|reflexivity].
  intros Hnone _. rewrite Hin. unfold term_matches. rewrite Hnone.
  split; [|tauto].
  intros [Hi [H|[H|(a & Ha & _)]]]; auto. discriminate.
Qed.

Lemma text_filter_keeps_witness :
  Sample.toLowerCase "" = ""
  /\ (In Sample.bache
         (IncidentList.searchStep Sample.toLowerCase "MERCADO"
            [Sample.poste; Sample.bache; Sample.farola])
      <-> In Sample.bache [Sample.poste; Sample.bache; Sample.farola]
          /\ term_matches Sample.toLowerCase "MERCADO" Sample.bache).
Proof.
  split; [reflexivity|].
  exact (proj1 (proj2 (text_filter_keeps Sample.toLowerCase eq_refl "MERCADO"
                         [Sample.poste; Sample.bache; Sample.farola] Sample.bache))).
Defined.

(** C5. The two filters commute and are applied conjunctively: the status
    step after the text step is the text step after the status step;
    [filterIncidents] is that composition; filtering by the term alone and
    then by the status alone gives what filtering by the status alone and
    then by the term alone gives, namely what filtering by both at once
    gives; and an incident is in the result exactly when each filter alone
    keeps it. *)
Theorem filters_commute (toLowerCase : string -> string)
    (incidents : list Incident.t) (searchTerm statusFilter : string) :
  IncidentList.statusStep statusFilter
    (IncidentList.searchStep toLowerCase searchTerm incidents)
  = IncidentList.searchStep toLowerCase searchTerm
      (IncidentList.statusStep statusFilter incidents)
  /\ IncidentList.filterIncidents toLowerCase incidents searchTerm statusFilter
     = IncidentList.statusStep statusFilter
         (IncidentList.searchStep toLowerCase searchTerm incidents)
  /\ IncidentList.filterIncidents toLowerCase
       (IncidentList.filterIncidents toLowerCase incidents searchTerm "all")
       "" statusFilter
     = IncidentList.filterIncidents toLowerCase
         (IncidentList.filterIncidents toLowerCase incidents "" statusFilter)
         searchTerm "all"
  /\ IncidentList.filterIncidents toLowerCase
       (IncidentList.filterIncidents toLowerCase incidents searchTerm "all")
       "" statusFilter
     = IncidentList.filterIncidents toLowerCase incidents searchTerm statusFilter
  /\ (forall incident,
        In incident (IncidentList.filterIncidents toLowerCase incidents searchTerm statusFilter)
        <-> In incident (IncidentList.filterIncidents toLowerCase incidents searchTerm "all")
            /\ In incident (IncidentList.filterIncidents toLowerCase incidents "" statusFilter)).
Proof.
  split; [apply steps_commute|]. split; [reflexivity|].
  split; [apply (steps_commute toLowerCase searchTerm statusFilter incidents)|].
  split; [reflexivity|].
  intros incident. unfold IncidentList.filterIncidents.
  rewrite searchStep_empty, statusStep_all.
  rewrite !In_statusStep, !In_searchStep. tauto.
Qed.

(** C6. With the empty search term and the status filter "all",
    [filterIncidents] returns the source list itself. *)
Theorem filter_identity (toLowerCase : string -> string) (incidents : list Incident.t) :
  IncidentList.filterIncidents toLowerCase incidents "" "all" = incidents.
Proof. reflexivity. Qed.

(** C7. With an empty search term and a status filter other than "all",
    [filterIncidents] returns exactly the incidents of that status, in
    their original relative order: the result is a subsequence of the
    source list, all of its incidents have the status, and every
    subsequence of the source list made of incidents of that status is a
    subsequence of the result.  For statuses pending, resolved, pending and
    the filter "pending" the result is the first and the third incident. *)
Theorem status_filter_exact (toLowerCase : string -> string)
    (incidents : list Incident.t) (statusFilter : string)
    (concrete : statusFilter <> "all") :
  sublist (IncidentList.filterIncidents toLowerCase incidents "" statusFilter) incidents
  /\ Forall (has_status statusFilter)
            (IncidentList.filterIncidents toLowerCase incidents "" statusFilter)
  /\ (forall kept : list Incident.t,
        sublist kept incidents -> Forall (has_status statusFilter) kept ->
        sublist kept (IncidentList.filterIncidents toLowerCase incidents "" statusFilter))
  /\ (forall a b c : Incident.t,
        Incident.status a = pending -> Incident.status b = resolved ->
        Incident.status c = pending ->
        IncidentList.filterIncidents toLowerCase [a; b; c] "" "pending" = [a; c]).
Proof.
  unfold IncidentList.filterIncidents. rewrite searchStep_empty.
  rewrite statusStep_concrete by exact concrete.
  split; [apply filter_sublist_of|]. split; [|split].
  - apply List.Forall_forall. intros i Hi. apply filter_In in Hi.
    apply matchesStatus_has_status, Hi.
  - intros kept Hsub Hall. apply filter_greatest_sublist; [exact Hsub|].
    eapply List.Forall_impl; [|exact Hall].
    intros i Hi. apply matchesStatus_has_status, Hi.
  - intros a b c Ha Hb Hc. rewrite searchStep_empty.
    unfold IncidentList.statusStep, IncidentList.matchesStatus. simpl.
    rewrite Ha, Hb, Hc. reflexivity.
Qed.

Lemma status_filter_exact_witness :
  "pending" <> "all"
  /\ sublist
       (IncidentList.filterIncidents Sample.toLowerCase
          [Sample.poste; Sample.bache; Sample.farola] "" "pending")
       [Sample.poste; Sample.bache; Sample.farola]
  /\ IncidentList.filterIncidents Sample.toLowerCase
       [Sample.poste; Sample.bache; Sample.farola] "" "pending"
     = [Sample.poste; Sample.farola].
Proof.
  assert (H : "pending" <> "all") by discriminate.
  split; [exact H|]. split.
  - apply (status_filter_exact Sample.toLowerCase
             [Sample.poste; Sample.bache; Sample.farola] "pending" H).
  - apply (status_filter_exact Sample.toLowerCase [] "pending" H); reflexivity.
Defined.

(** ** Incident browser: who sees the reporter *)

Lemma is_authority_role (viewer : option Profile.t) :
  IncidentList.is_authority viewer = true
  <-> exists p, viewer = Some p /\ Profile.role p = authority.
Proof.
  destruct viewer as [p|]; simpl.
  - destruct (Profile.role p) eqn:Hr; simpl; split; try discriminate.
    + intros (q & [= <-] & Hq). congruence.
    + intros _. exists p. auto.
    + reflexivity.
  - split; [discriminate | intros (p & H & _); discriminate].
Qed.

Lemma citizen_is_not_authority (viewer : option Profile.t) :
  (forall p, viewer = Some p -> Profile.role p = citizen) ->
  IncidentList.is_authority viewer = false.
Proof.
  intros H. destruct viewer as [p|]; [|reflexivity].
  simpl. rewrite (H p eq_refl). reflexivity.
Qed.

(** C8. When the viewing profile is absent or its role is citizen, the
    markup of an incident row does not depend on the reporting profile
    joined to the incident: the row rendered for the incident joined with
    any reporter (or none) is the row rendered for the incident as it is,
    and so is the whole list, whatever reporter each incident is joined
    with.  The reporter's line is produced only for a viewer whose role is
    authority. *)
Theorem reporter_hidden_from_citizens (toLocaleDateString : string -> string)
    (viewer : option Profile.t)
    (not_authority : forall p, viewer = Some p -> Profile.role p = citizen)
    (incident : Incident.t) (reporter : option Profile.t) :
  IncidentList.renderRow toLocaleDateString viewer (with_reporter incident reporter)
  = IncidentList.renderRow toLocaleDateString viewer incident
  /\ (forall (incidents : list Incident.t) (joined : Incident.t -> option Profile.t),
        IncidentList.renderList toLocaleDateString viewer
          (List.map (fun i => with_reporter i (joined i)) incidents)
        = IncidentList.renderList toLocaleDateString viewer incidents)
  /\ (forall (anyone : option Profile.t) (shown : Profile.t),
        IncidentList.reporterShown anyone incident = Some shown ->
        exists p, anyone = Some p /\ Profile.role p = authority).
Proof.
  pose proof (citizen_is_not_authority viewer not_authority) as Hna.
  assert (Hrow : forall i r,
             IncidentList.renderRow toLocaleDateString viewer (with_reporter i r)
             = IncidentList.renderRow toLocaleDateString viewer i).
  { intros i r. unfold IncidentList.renderRow, IncidentList.reporterShown.
    rewrite Hna. reflexivity. }
  split; [apply Hrow|]. split.
  - intros incidents joined. destruct incidents as [|i incidents]; [reflexivity|].
    cbn [IncidentList.renderList List.map]. f_equal.
    rewrite Hrow. f_equal.
    induction incidents as [|j incidents IH]; [reflexivity|].
    cbn [List.map]. rewrite Hrow, IH. reflexivity.
  - intros anyone shown. unfold IncidentList.reporterShown.
    destruct (IncidentList.is_authority anyone) eqn:Ha; [|discriminate].
    intros _. apply is_authority_role, Ha.
Qed.

Lemma reporter_hidden_from_citizens_witness :
  (forall p, Some Sample.luis = Some p -> Profile.role p = citizen)
  /\ IncidentList.renderRow (fun d => d) (Some Sample.luis)
       (with_reporter Sample.poste (Some Sample.ana))
     = IncidentList.renderRow (fun d => d) (Some Sample.luis) Sample.poste.
Proof.
  assert (H : forall p, Some Sample.luis = Some p -> Profile.role p = citizen).
  { intros p [= <-]. reflexivity. }
  split; [exact H|].
  exact (proj1 (reporter_hidden_from_citizens (fun d => d) (Some Sample.luis) H
                  Sample.poste (Some Sample.ana))).
Defined.

(** ** Session manager: auth-state changes *)

Section AnyBackend.

Context {B : Type} (h : Backend B).

(** A notification that carries a session: the profile is fetched; a
    fetch that succeeds stores what the backend returned, a fetch that
    fails is logged and stores nothing; [loading] ends false. *)
Lemma onAuthStateChange_session (st : AuthState.t) (b : B) (session : Session.t)
    (r : Response.t (option Profile.t)) (b1 : B) :
  h _ (profiles_select_by_id (User.id (Session.user session))) b = (r, b1) ->
  run h (AuthContext.onAuthStateChange (Some session)) st b
  = Run.mk (Returned tt)
      (AuthState.mk (Some (Session.user session))
         (match Response.error r with
          | Some _ => AuthState.profile st
          | None => Response.data r
          end)
         (Some session) false)
      b1
      [Req (profiles_select_by_id (User.id (Session.user session)))]
      (match Response.error r with
       | Some e => [("Error loading profile:", e)]
       | None => []
       end).
Proof.
  intros Hsel. destruct r as [data [e|]]; simpl; rewrite Hsel; reflexivity.
Qed.

(** [loading] ends false after every notification. *)
Lemma onAuthStateChange_loading (st : AuthState.t) (b : B) (session : option Session.t) :
  AuthState.loading (Run.state (run h (AuthContext.onAuthStateChange session) st b))
  = false.
Proof.
  destruct session as [session|]; [|reflexivity].
  destruct (h _ (profiles_select_by_id (User.id (Session.user session))) b)
    as [r b1] eqn:Hsel.
  rewrite (onAuthStateChange_session st b session r b1 Hsel). reflexivity.
Qed.

(** C9. After a notification that carries no session the profile is
    absent and [loading] is false (and so are the session and the user
    absent), whatever the state was before and whatever the backend; no
    request is sent. *)
Theorem signed_out_notification (st : AuthState.t) (b : B) :
  AuthState.profile (Run.state (run h (AuthContext.onAuthStateChange None) st b)) = None
  /\ AuthState.loading (Run.state (run h (AuthContext.onAuthStateChange None) st b))
     = false
  /\ run h (AuthContext.onAuthStateChange None) st b
     = Run.mk (Returned tt) (AuthState.mk None None None false) b [] [].
Proof. repeat split. Qed.

End AnyBackend.

(** C1. A notification for a new session whose profile fetch fails leaves
    the previous user's profile in place.  Ana, an authority, is signed in;
    the notification carries the session of Luis while the backend refuses
    every request: afterwards the session and the user are those of Luis,
    [loading] is false, and the profile is still Ana's. *)
Theorem stale_profile_after_failed_fetch :
  run Hosted.handle (AuthContext.onAuthStateChange (Some Sample.luis_session))
      Sample.ana_signed_in
      (Hosted.mk [Sample.ana; Sample.luis; Sample.rosa] [] None (Some Sample.network_down))
  = Run.mk (Returned tt)
      (AuthState.mk (Some (Session.user Sample.luis_session)) (Some Sample.ana)
                    (Some Sample.luis_session) false)
      (Hosted.mk [Sample.ana; Sample.luis; Sample.rosa] [] None (Some Sample.network_down))
      [Req (profiles_select_by_id "p-luis")]
      [("Error loading profile:", Sample.network_down)].
Proof. reflexivity. Qed.

(** ** Session manager: sign-up *)

Section SignUp.

Context {B : Type} (h : Backend B).
Variables (email password fullName : string) (phone : option string).

(** The three requests of a revival, in the order they are sent. *)
Lemma signUp_revival_run (st : AuthState.t) (b : B)
    (r1 : Response.t (option ExistingProfile.t)) (b1 : B)
    (existing : ExistingProfile.t)
    (r2 : Response.t AuthData.t) (b2 : B) (user : User.t) :
  h _ (profiles_select_id_is_deleted_by_email email) b = (r1, b1) ->
  Response.error r1 = None ->
  Response.data r1 = Some existing ->
  ExistingProfile.is_deleted existing = true ->
  h _ (auth_signUp email password) b1 = (r2, b2) ->
  Response.error r2 = None ->
  AuthData.user (Response.data r2) = Some user ->
  let update :=
    profiles_update_by_id (AuthContext.reviveValues fullName phone)
                          (ExistingProfile.id existing) in
  run h (AuthContext.signUp email password fullName phone) st b
  = Run.mk (ended (Response.error (fst (h _ update b2)))) st (snd (h _ update b2))
      [Req (profiles_select_id_is_deleted_by_email email);
       Req (auth_signUp email password);
       Req update]
      [].
Proof.
  intros Hsel He1 Hd1 Hdel Hreg He2 Hu2 update. subst update.
  destruct r1 as [d1 e1], r2 as [[u2 s2] e2], existing as [eid edel].
  simpl in *. subst.
  rewrite Hsel. simpl. rewrite Hreg. simpl.
  destruct (h _ (profiles_update_by_id (AuthContext.reviveValues fullName phone) eid) b2)
    as [[[] [e3|]] b3]; reflexivity.
Qed.

(** An email whose lookup returns a profile that is not soft-deleted:
    the code throws after the lookup. *)
Lemma signUp_duplicate_run (st : AuthState.t) (b : B)
    (r : Response.t (option ExistingProfile.t)) (b1 : B)
    (existing : ExistingProfile.t) :
  h _ (profiles_select_id_is_deleted_by_email email) b = (r, b1) ->
  Response.error r = None ->
  Response.data r = Some existing ->
  ExistingProfile.is_deleted existing = false ->
  run h (AuthContext.signUp email password fullName phone) st b
  = Run.mk (Thrown DuplicateAccount) st b1
      [Req (profiles_select_id_is_deleted_by_email email)] [].
Proof.
  intros Hsel He Hd Hdel.
  destruct r as [d e], existing as [eid edel]. simpl in *. subst.
  rewrite Hsel. reflexivity.
Qed.

(** C2. When the lookup by email returns a profile that is not
    soft-deleted, [signUp] throws the duplicate-account error and the
    lookup is the only request it has sent: no credential registration,
    no insert and no update; the backend is left in the state the lookup
    left it in. *)
Theorem signUp_duplicate_account (st : AuthState.t) (b : B)
    (r : Response.t (option ExistingProfile.t)) (b1 : B)
    (existing : ExistingProfile.t) :
  h _ (profiles_select_id_is_deleted_by_email email) b = (r, b1) ->
  Response.error r = None ->
  Response.data r = Some existing ->
  ExistingProfile.is_deleted existing = false ->
  run h (AuthContext.signUp email password fullName phone) st b
  = Run.mk (Thrown DuplicateAccount) st b1
      [Req (profiles_select_id_is_deleted_by_email email)] []
  /\ Forall (fun q => is_mutation q = false)
            (Run.requests (run h (AuthContext.signUp email password fullName phone) st b)).
Proof.
  intros Hsel He Hd Hdel.
  rewrite (signUp_duplicate_run st b r b1 existing Hsel He Hd Hdel).
  split; [reflexivity | repeat constructor].
Qed.

(** C3. When the lookup by email returns a soft-deleted profile and the
    credential registration returns a user, [signUp] sends, after those
    two requests, one update and nothing else: the update is addressed to
    the identifier of the existing profile and writes the new full name,
    the new phone, [is_deleted = false] and [deleted_at = null]; no insert
    is sent.  The phone written is the phone given, character for
    character, when one is given and it is not empty, and [null] when none
    is given or it is empty.  Written over a table, the update changes the
    rows of that identifier in place and adds no row. *)
Theorem signUp_revives_in_place (st : AuthState.t) (b : B)
    (r1 : Response.t (option ExistingProfile.t)) (b1 : B)
    (existing : ExistingProfile.t)
    (r2 : Response.t AuthData.t) (b2 : B) (user : User.t) :
  h _ (profiles_select_id_is_deleted_by_email email) b = (r1, b1) ->
  Response.error r1 = None ->
  Response.data r1 = Some existing ->
  ExistingProfile.is_deleted existing = true ->
  h _ (auth_signUp email password) b1 = (r2, b2) ->
  Response.error r2 = None ->
  AuthData.user (Response.data r2) = Some user ->
  let new_phone :=
    match phone with
    | Some (String c rest) => Some (String c rest)
    | Some EmptyString => None
    | None => None
    end in
  let values :=
    {| Values.id := None;
       Values.email := None;
       Values.full_name := Some fullName;
       Values.phone := Some new_phone;
       Values.role := None;
       Values.is_deleted := Some false;
       Values.deleted_at := Some None |} in
  let result := run h (AuthContext.signUp email password fullName phone) st b in
  Run.requests result
  = [Req (profiles_select_id_is_deleted_by_email email);
     Req (auth_signUp email password);
     Req (profiles_update_by_id values (ExistingProfile.id existing))]
  /\ profile_writes (Run.requests result)
     = [Updated (ExistingProfile.id existing) values]
  /\ Run.backend result
     = snd (h _ (profiles_update_by_id values (ExistingProfile.id existing)) b2)
  /\ (forall rows : list Profile.t,
        Hosted.update values (ExistingProfile.id existing) rows
        = List.map
            (fun row =>
               if String.eqb (Profile.id row) (ExistingProfile.id existing)
               then {| Profile.id := Profile.id row;
                       Profile.email := Profile.email row;
                       Profile.full_name := fullName;
                       Profile.phone := new_phone;
                       Profile.role := Profile.role row;
                       Profile.is_deleted := false;
                       Profile.deleted_at := None |}
               else row)
            rows)
  /\ (forall rows : list Profile.t,
        List.map Profile.id (Hosted.update values (ExistingProfile.id existing) rows)
        = List.map Profile.id rows)
  /\ (forall p : string,
        phone = Some p -> p <> "" -> Values.phone values = Some (Some p))
  /\ (phone = None \/ phone = Some "" -> Values.phone values = Some None).
Proof.
  intros Hsel He1 Hd1 Hdel Hreg He2 Hu2 new_phone values result.
  subst result.
  rewrite (signUp_revival_run st b r1 b1 existing r2 b2 user
             Hsel He1 Hd1 Hdel Hreg He2 Hu2).
  assert (Hvalues : AuthContext.reviveValues fullName phone = values).
  { subst values new_phone. unfold AuthContext.reviveValues.
    destruct phone as [[|c rest]|]; reflexivity. }
  cbn [Run.requests Run.backend]. rewrite Hvalues.
  split; [reflexivity|]. split; [reflexivity|]. split; [reflexivity|].
  split; [|split; [|split]].
  - intros rows. unfold Hosted.update. apply List.map_ext. intros row.
    destruct (String.eqb (Profile.id row) (ExistingProfile.id existing)); reflexivity.
  - intros rows. unfold Hosted.update. rewrite List.map_map.
    apply List.map_ext. intros row.
    destruct (String.eqb (Profile.id row) (ExistingProfile.id existing)); reflexivity.
  - intros p Hp Hne. subst values new_phone. cbn [Values.phone]. rewrite Hp.
    destruct p as [|c rest]; [congruence | reflexivity].
  - intros [Hp|Hp]; subst values new_phone; cbn [Values.phone]; rewrite Hp; reflexivity.
Qed.

(** C10. In a revival the only write to the table of profiles is one
    update whose object has exactly the columns full_name, phone,
    is_deleted and deleted_at.  Written over any row it leaves the
    identifier, the email and the role as they were: a profile that was
    an authority is an authority after the revival, and over a table the
    roles and the emails stay row for row. *)
Theorem signUp_revival_keeps_role (st : AuthState.t) (b : B)
    (r1 : Response.t (option ExistingProfile.t)) (b1 : B)
    (existing : ExistingProfile.t)
    (r2 : Response.t AuthData.t) (b2 : B) (user : User.t) :
  h _ (profiles_select_id_is_deleted_by_email email) b = (r1, b1) ->
  Response.error r1 = None ->
  Response.data r1 = Some existing ->
  ExistingProfile.is_deleted existing = true ->
  h _ (auth_signUp email password) b1 = (r2, b2) ->
  Response.error r2 = None ->
  AuthData.user (Response.data r2) = Some user ->
  exists values : Values.t,
    profile_writes
      (Run.requests (run h (AuthContext.signUp email password fullName phone) st b))
    = [Updated (ExistingProfile.id existing) values]
    /\ Values.columns values = ["full_name"; "phone"; "is_deleted"; "deleted_at"]
    /\ (forall row : Profile.t,
          Profile.id (Hosted.write values row) = Profile.id row
          /\ Profile.email (Hosted.write values row) = Profile.email row
          /\ Profile.role (Hosted.write values row) = Profile.role row)
    /\ (forall row : Profile.t,
          Profile.role row = authority ->
          Profile.role (Hosted.write values row) = authority)
    /\ (forall (id : string) (rows : list Profile.t),
          List.map Profile.role (Hosted.update values id rows)
          = List.map Profile.role rows
          /\ List.map Profile.email (Hosted.update values id rows)
             = List.map Profile.email rows).
Proof.
  intros Hsel He1 Hd1 Hdel Hreg He2 Hu2.
  exists (AuthContext.reviveValues fullName phone).
  rewrite (signUp_revival_run st b r1 b1 existing r2 b2 user
             Hsel He1 Hd1 Hdel Hreg He2 Hu2).
  split; [reflexivity|]. split; [reflexivity|]. split; [intros row; repeat split|].
  split; [intros row Hrow; exact Hrow|].
  intros id rows. unfold Hosted.update. rewrite !List.map_map.
  split; apply List.map_ext; intros row;
    destruct (String.eqb (Profile.id row) id); reflexivity.
Qed.

End SignUp.

(** ** Sign-up against the reference backend *)

(** On the reference backend, outside an outage: when exactly one row has
    the email and it is not soft-deleted, [signUp] throws the
    duplicate-account error and the backend is as it was. *)
Lemma signUp_duplicate_on_hosted (db : Hosted.t) (row : Profile.t)
    (email password fullName : string) (phone : option string) (st : AuthState.t) :
  Hosted.outage db = None ->
  List.filter (Hosted.has_email email) (Hosted.profiles db) = [row] ->
  Profile.is_deleted row = false ->
  run Hosted.handle (AuthContext.signUp email password fullName phone) st db
  = Run.mk (Thrown DuplicateAccount) st db
      [Req (profiles_select_id_is_deleted_by_email email)] [].
Proof.
  intros Hup Hrows Hdel.
  apply (signUp_duplicate_run Hosted.handle email password fullName phone st db
           (Response.mk (Some (Hosted.projection row)) None) db
           (Hosted.projection row)); try reflexivity; [|exact Hdel].
  simpl. rewrite Hup, Hrows. reflexivity.
Qed.

(** On the reference backend, outside an outage: when exactly one row has
    the email and it is soft-deleted, [signUp] returns, the credentials are
    registered, and the table is the old one with that row's identifier
    revived in place. *)
Lemma signUp_revival_on_hosted (db : Hosted.t) (row : Profile.t)
    (email password fullName : string) (phone : option string) (st : AuthState.t) :
  Hosted.outage db = None ->
  List.filter (Hosted.has_email email) (Hosted.profiles db) = [row] ->
  Profile.is_deleted row = true ->
  run Hosted.handle (AuthContext.signUp email password fullName phone) st db
  = Run.mk (Returned tt) st
      (Hosted.mk
         (Hosted.update (AuthContext.reviveValues fullName phone) (Profile.id row)
                        (Hosted.profiles db))
         (Hosted.users db ++ [User.mk ("user:" ++ email)%string email])
         (Hosted.current db) None)
      [Req (profiles_select_id_is_deleted_by_email email);
       Req (auth_signUp email password);
       Req (profiles_update_by_id (AuthContext.reviveValues fullName phone)
                                  (Profile.id row))]
      [].
Proof.
  intros Hup Hrows Hdel.
  rewrite (signUp_revival_run Hosted.handle email password fullName phone st db
             (Response.mk (Some (Hosted.projection row)) None) db
             (Hosted.projection row)
             (Response.mk
                (AuthData.mk (Some (User.mk ("user:" ++ email)%string email)) None) None)
             (Hosted.mk (Hosted.profiles db)
                        (Hosted.users db ++ [User.mk ("user:" ++ email)%string email])
                        (Hosted.current db) (Hosted.outage db))
             (User.mk ("user:" ++ email)%string email)).
  - simpl. rewrite Hup. reflexivity.
  - simpl. rewrite Hup, Hrows. reflexivity.
  - reflexivity.
  - reflexivity.
  - exact Hdel.
  - simpl. rewrite Hup. reflexivity.
  - reflexivity.
  - reflexivity.
Qed.

(** ** The sign-up theorems on the reference backend *)

Lemma signUp_duplicate_account_witness :
  run Hosted.handle (AuthContext.signUp "ana@chepen.pe" "secreto" "Ana T." None)
      AuthState.initial Sample.db
  = Run.mk (Thrown DuplicateAccount) AuthState.initial Sample.db
      [Req (profiles_select_id_is_deleted_by_email "ana@chepen.pe")] [].
Proof.
  exact (proj1 (signUp_duplicate_account Hosted.handle
                  "ana@chepen.pe" "secreto" "Ana T." None
                  AuthState.initial Sample.db
                  (Response.mk (Some (ExistingProfile.mk "p-ana" false)) None)
                  Sample.db (ExistingProfile.mk "p-ana" false)
                  eq_refl eq_refl eq_refl eq_refl)).
Defined.

Lemma signUp_revives_in_place_witness :
  (profile_writes
     (Run.requests
        (run Hosted.handle
             (AuthContext.signUp "rosa@chepen.pe" "clave" "Rosa D." (Some "966123123"))
             AuthState.initial Sample.db))
   = [Updated "p-rosa"
        {| Values.id := None;
           Values.email := None;
           Values.full_name := Some "Rosa D.";
           Values.phone := Some (Some "966123123");
           Values.role := None;
           Values.is_deleted := Some false;
           Values.deleted_at := Some None |}]
   /\ Hosted.profiles
        (Run.backend
           (run Hosted.handle
                (AuthContext.signUp "rosa@chepen.pe" "clave" "Rosa D." (Some "966123123"))
                AuthState.initial Sample.db))
      = [Sample.ana; Sample.luis;
         Profile.mk "p-rosa" "rosa@chepen.pe" "Rosa D." (Some "966123123")
                    authority false None])
  /\ (profile_writes
        (Run.requests
           (run Hosted.handle
                (AuthContext.signUp "rosa@chepen.pe" "clave" "Rosa D." (Some ""))
                AuthState.initial Sample.db))
      = [Updated "p-rosa"
           {| Values.id := None;
              Values.email := None;
              Values.full_name := Some "Rosa D.";
              Values.phone := Some None;
              Values.role := None;
              Values.is_deleted := Some false;
              Values.deleted_at := Some None |}]
      /\ Hosted.profiles
           (Run.backend
              (run Hosted.handle
                   (AuthContext.signUp "rosa@chepen.pe" "clave" "Rosa D." (Some ""))
                   AuthState.initial Sample.db))
         = [Sample.ana; Sample.luis;
            Profile.mk "p-rosa" "rosa@chepen.pe" "Rosa D." None authority false None]).
Proof.
  split.
  - destruct (signUp_revives_in_place Hosted.handle
                "rosa@chepen.pe" "clave" "Rosa D." (Some "966123123")
                AuthState.initial Sample.db
                (Response.mk (Some (ExistingProfile.mk "p-rosa" true)) None)
                Sample.db (ExistingProfile.mk "p-rosa" true)
                (Response.mk
                   (AuthData.mk (Some (User.mk "user:rosa@chepen.pe" "rosa@chepen.pe"))
                                None)
                   None)
                (Hosted.mk [Sample.ana; Sample.luis; Sample.rosa]
                           [User.mk "user:rosa@chepen.pe" "rosa@chepen.pe"] None None)
                (User.mk "user:rosa@chepen.pe" "rosa@chepen.pe")
                eq_refl eq_refl eq_refl eq_refl eq_refl eq_refl eq_refl)
      as (_ & Hwrites & Hbackend & _).
    split; [exact Hwrites|]. rewrite Hbackend. reflexivity.
  - destruct (signUp_revives_in_place Hosted.handle
                "rosa@chepen.pe" "clave" "Rosa D." (Some "")
                AuthState.initial Sample.db
                (Response.mk (Some (ExistingProfile.mk "p-rosa" true)) None)
                Sample.db (ExistingProfile.mk "p-rosa" true)
                (Response.mk
                   (AuthData.mk (Some (User.mk "user:rosa@chepen.pe" "rosa@chepen.pe"))
                                None)
                   None)
                (Hosted.mk [Sample.ana; Sample.luis; Sample.rosa]
                           [User.mk "user:rosa@chepen.pe" "rosa@chepen.pe"] None None)
                (User.mk "user:rosa@chepen.pe" "rosa@chepen.pe")
                eq_refl eq_refl eq_refl eq_refl eq_refl eq_refl eq_refl)
      as (_ & Hwrites & Hbackend & _).
    split; [exact Hwrites|]. rewrite Hbackend. reflexivity.
Defined.

Lemma signUp_revival_keeps_role_witness :
  exists values : Values.t,
    profile_writes
      (Run.requests
         (run Hosted.handle
              (AuthContext.signUp "rosa@chepen.pe" "clave" "Rosa D." (Some "966123123"))
              AuthState.initial Sample.db))
    = [Updated "p-rosa" values]
    /\ Values.columns values = ["full_name"; "phone"; "is_deleted"; "deleted_at"]
    /\ Profile.role (Hosted.write values Sample.rosa) = authority.
Proof.
  destruct (signUp_revival_keeps_role Hosted.handle
              "rosa@chepen.pe" "clave" "Rosa D." (Some "966123123")
              AuthState.initial Sample.db
              (Response.mk (Some (ExistingProfile.mk "p-rosa" true)) None)
              Sample.db (ExistingProfile.mk "p-rosa" true)
              (Response.mk
                 (AuthData.mk (Some (User.mk "user:rosa@chepen.pe" "rosa@chepen.pe")) None)
                 None)
              (Hosted.mk [Sample.ana; Sample.luis; Sample.rosa]
                         [User.mk "user:rosa@chepen.pe" "rosa@chepen.pe"] None None)
              (User.mk "user:rosa@chepen.pe" "rosa@chepen.pe")
              eq_refl eq_refl eq_refl eq_refl eq_refl eq_refl eq_refl)
    as (values & Hwrites & Hcolumns & _ & Hrole & _).
  exists values. split; [exact Hwrites|]. split; [exact Hcolumns|].
  apply Hrole. reflexivity.
Defined.

(** * Further properties *)

(** ** Strings and lists *)

Lemma string_app_assoc (a b c : string) :
  ((a ++ b) ++ c)%string = (a ++ b ++ c)%string.
Proof.
  induction a as [|x a IH]; [reflexivity|].
  change (String x ((a ++ b) ++ c) = String x (a ++ b ++ c)). rewrite IH. reflexivity.
Qed.

Lemma occurs_trans (a b c : string) : occurs a b -> occurs b c -> occurs a c.
Proof.
  intros (p & q & ->) (p' & q' & ->).
  exists (p' ++ p)%string, (q ++ q')%string.
  rewrite !string_app_assoc. reflexivity.
Qed.

Lemma or_else_truthy (s : option string) (d : string) :
  Js.truthy d = true -> Js.truthy (Js.or_else s d) = true.
Proof.
  intros Hd. destruct s as [v|]; simpl; [|exact Hd].
  destruct (Js.truthy v) eqn:Hv; [exact Hv | exact Hd].
Qed.

Lemma filter_twice {A : Type} (p : A -> bool) (l : list A) :
  List.filter p (List.filter p l) = List.filter p l.
Proof.
  induction l as [|x l IH]; simpl; [reflexivity|].
  destruct (p x) eqn:Hp; simpl; rewrite ?Hp, IH; reflexivity.
Qed.

Lemma filter_of_sublist {A : Type} (p : A -> bool) (k l : list A) :
  sublist k l -> sublist (List.filter p k) (List.filter p l).
Proof.
  induction 1 as [|x k l Hkl IH|x k l Hkl IH]; simpl.
  - constructor.
  - destruct (p x); [apply sublist_skip|]; exact IH.
  - destruct (p x); [apply sublist_cons|]; exact IH.
Qed.

Lemma filter_weaker_sublist {A : Type} (p q : A -> bool) (l : list A) :
  (forall x, p x = true -> q x = true) ->
  sublist (List.filter p l) (List.filter q l).
Proof.
  intros Hpq. induction l as [|x l IH]; simpl; [constructor|].
  destruct (p x) eqn:Hp.
  - rewrite (Hpq x Hp). apply sublist_skip, IH.
  - destruct (q x); [apply sublist_cons|]; exact IH.
Qed.

Lemma filter_none {A : Type} (p : A -> bool) (l : list A) :
  (forall x, p x = false) -> List.filter p l = [].
Proof.
  intros Hp. induction l as [|x l IH]; simpl; [reflexivity|].
  rewrite Hp. exact IH.
Qed.

(** ** Incident browser: more on the filter *)

Lemma statusStep_sublist (statusFilter : string) (incidents : list Incident.t) :
  sublist (IncidentList.statusStep statusFilter incidents) incidents.
Proof.
  unfold IncidentList.statusStep.
  destruct (negb (statusFilter =? "all")%string); [apply filter_sublist_of | reflexivity].
Qed.

Lemma statusStep_of_sublist (statusFilter : string) (k l : list Incident.t) :
  sublist k l ->
  sublist (IncidentList.statusStep statusFilter k) (IncidentList.statusStep statusFilter l).
Proof.
  intros H. unfold IncidentList.statusStep.
  destruct (negb (statusFilter =? "all")%string); [apply filter_of_sublist|]; exact H.
Qed.

Lemma statusStep_twice (statusFilter : string) (incidents : list Incident.t) :
  IncidentList.statusStep statusFilter (IncidentList.statusStep statusFilter incidents)
  = IncidentList.statusStep statusFilter incidents.
Proof.
  unfold IncidentList.statusStep.
  destruct (negb (statusFilter =? "all")%string); [apply filter_twice | reflexivity].
Qed.

Lemma statusStep_app (statusFilter : string) (l1 l2 : list Incident.t) :
  IncidentList.statusStep statusFilter (l1 ++ l2)
  = IncidentList.statusStep statusFilter l1 ++ IncidentList.statusStep statusFilter l2.
Proof.
  unfold IncidentList.statusStep.
  destruct (negb (statusFilter =? "all")%string); [apply List.filter_app | reflexivity].
Qed.

Section MoreFilterFacts.

Variable toLowerCase : string -> string.

Lemma searchStep_sublist (searchTerm : string) (incidents : list Incident.t) :
  sublist (IncidentList.searchStep toLowerCase searchTerm incidents) incidents.
Proof.
  unfold IncidentList.searchStep.
  destruct (Js.truthy searchTerm); [apply filter_sublist_of | reflexivity].
Qed.

Lemma searchStep_twice (searchTerm : string) (incidents : list Incident.t) :
  IncidentList.searchStep toLowerCase searchTerm
    (IncidentList.searchStep toLowerCase searchTerm incidents)
  = IncidentList.searchStep toLowerCase searchTerm incidents.
Proof.
  unfold IncidentList.searchStep.
  destruct (Js.truthy searchTerm); [apply filter_twice | reflexivity].
Qed.

Lemma searchStep_app (searchTerm : string) (l1 l2 : list Incident.t) :
  IncidentList.searchStep toLowerCase searchTerm (l1 ++ l2)
  = IncidentList.searchStep toLowerCase searchTerm l1
    ++ IncidentList.searchStep toLowerCase searchTerm l2.
Proof.
  unfold IncidentList.searchStep.
  destruct (Js.truthy searchTerm); [apply List.filter_app | reflexivity].
Qed.

Lemma filterIncidents_sublist (incidents : list Incident.t)
    (searchTerm statusFilter : string) :
  sublist (IncidentList.filterIncidents toLowerCase incidents searchTerm statusFilter)
          incidents.
Proof.
  unfold IncidentList.filterIncidents.
  transitivity (IncidentList.searchStep toLowerCase searchTerm incidents);
    [apply statusStep_sublist | apply searchStep_sublist].
Qed.

Lemma filterIncidents_twice (incidents : list Incident.t)
    (searchTerm statusFilter : string) :
  IncidentList.filterIncidents toLowerCase
    (IncidentList.filterIncidents toLowerCase incidents searchTerm statusFilter)
    searchTerm statusFilter
  = IncidentList.filterIncidents toLowerCase incidents searchTerm statusFilter.
Proof.
  unfold IncidentList.filterIncidents.
  rewrite <- (steps_commute toLowerCase searchTerm statusFilter
                (IncidentList.searchStep toLowerCase searchTerm incidents)).
  rewrite searchStep_twice, statusStep_twice. reflexivity.
Qed.

Lemma filterIncidents_nil (searchTerm statusFilter : string) :
  IncidentList.filterIncidents toLowerCase [] searchTerm statusFilter = [].
Proof.
  unfold IncidentList.filterIncidents, IncidentList.searchStep, IncidentList.statusStep.
  destruct (Js.truthy searchTerm), (negb (statusFilter =? "all")%string); reflexivity.
Qed.

(** X1. Whatever the search term and the status filter, the result of
    [filterIncidents] is a subsequence of the source list: incidents are
    neither reordered, nor repeated, nor invented, and the result is no
    longer than the source. *)
Theorem filter_is_subsequence (incidents : list Incident.t)
    (searchTerm statusFilter : string) :
  sublist (IncidentList.filterIncidents toLowerCase incidents searchTerm statusFilter)
          incidents
  /\ length (IncidentList.filterIncidents toLowerCase incidents searchTerm statusFilter)
     <= length incidents
  /\ (forall incident,
        In incident
           (IncidentList.filterIncidents toLowerCase incidents searchTerm statusFilter) ->
        In incident incidents).
Proof.
  pose proof (filterIncidents_sublist incidents searchTerm statusFilter) as Hsub.
  split; [exact Hsub|]. split; [apply sublist_length, Hsub|].
  intros incident Hin. unfold IncidentList.filterIncidents in Hin.
  apply In_statusStep in Hin. destruct Hin as [Hin _].
  apply In_searchStep in Hin. apply Hin.
Qed.

(** X2. Filtering is idempotent: filtering a result again with the same
    term and status changes nothing. *)
Theorem filter_idempotent (incidents : list Incident.t)
    (searchTerm statusFilter : string) :
  IncidentList.filterIncidents toLowerCase
    (IncidentList.filterIncidents toLowerCase incidents searchTerm statusFilter)
    searchTerm statusFilter
  = IncidentList.filterIncidents toLowerCase incidents searchTerm statusFilter.
Proof. apply filterIncidents_twice. Qed.

(** X3. Each incident is judged on its own: filtering a concatenation is
    concatenating the filtered parts, and an empty list stays empty
    (no rows is no error). *)
Theorem filter_concatenation (l1 l2 : list Incident.t)
    (searchTerm statusFilter : string) :
  IncidentList.filterIncidents toLowerCase (l1 ++ l2) searchTerm statusFilter
  = IncidentList.filterIncidents toLowerCase l1 searchTerm statusFilter
    ++ IncidentList.filterIncidents toLowerCase l2 searchTerm statusFilter
  /\ IncidentList.filterIncidents toLowerCase [] searchTerm statusFilter = [].
Proof.
  unfold IncidentList.filterIncidents. rewrite searchStep_app, statusStep_app.
  split; [reflexivity | apply filterIncidents_nil].
Qed.

(** X4. The search is case-insensitive: two terms, neither empty, that
    lowercase to the same text give the same result. *)
Theorem search_ignores_case (incidents : list Incident.t)
    (term1 term2 statusFilter : string) :
  term1 <> "" -> term2 <> "" ->
  toLowerCase term1 = toLowerCase term2 ->
  IncidentList.filterIncidents toLowerCase incidents term1 statusFilter
  = IncidentList.filterIncidents toLowerCase incidents term2 statusFilter.
Proof.
  intros H1 H2 Hlower. unfold IncidentList.filterIncidents. f_equal.
  unfold IncidentList.searchStep.
  destruct term1; [congruence|]. destruct term2; [congruence|]. simpl.
  apply List.filter_ext. intros incident.
  unfold IncidentList.matchesSearch. rewrite Hlower. reflexivity.
Qed.

(** X5. The status filter is an exact comparison: a filter string that is
    neither "all" nor the name of one of the four statuses (the empty
    string, a name in capitals) empties the result, whatever the list and
    the search term. *)
Theorem unknown_status_gives_nothing (incidents : list Incident.t)
    (searchTerm statusFilter : string) :
  statusFilter <> "all" ->
  (forall s : Status, status_str s <> statusFilter) ->
  IncidentList.filterIncidents toLowerCase incidents searchTerm statusFilter = [].
Proof.
  intros Hall Hnone. unfold IncidentList.filterIncidents.
  rewrite statusStep_concrete by exact Hall.
  apply filter_none. intros incident.
  apply String.eqb_neq, Hnone.
Qed.

(** X6. Narrowing a search never adds results: when the lowercase of a
    term occurs in the lowercase of a second, non-empty term, the result
    for the second term is a subsequence of the result for the first. *)
Theorem longer_term_narrows (incidents : list Incident.t)
    (shorter longer statusFilter : string) :
  longer <> "" ->
  occurs (toLowerCase shorter) (toLowerCase longer) ->
  sublist (IncidentList.filterIncidents toLowerCase incidents longer statusFilter)
          (IncidentList.filterIncidents toLowerCase incidents shorter statusFilter).
Proof.
  intros Hne Hocc. unfold IncidentList.filterIncidents.
  apply statusStep_of_sublist. unfold IncidentList.searchStep.
  destruct longer as [|c longer]; [congruence|]. cbn [Js.truthy].
  destruct (Js.truthy shorter); [|apply filter_sublist_of].
  apply filter_weaker_sublist. intros incident.
  rewrite !matchesSearch_term_matches. unfold term_matches.
  intros [H|[H|(a & Ha & H)]].
  - left. eapply occurs_trans; eassumption.
  - right. left. eapply occurs_trans; eassumption.
  - right. right. exists a. split; [exact Ha|]. eapply occurs_trans; eassumption.
Qed.

(** X7. The four statuses split a search result: the numbers of incidents
    kept under "pending", "in_progress", "resolved" and "rejected" add up
    to the number kept under "all". *)
Theorem statuses_split_the_result (incidents : list Incident.t) (searchTerm : string) :
  length (IncidentList.filterIncidents toLowerCase incidents searchTerm "pending")
  + length (IncidentList.filterIncidents toLowerCase incidents searchTerm "in_progress")
  + length (IncidentList.filterIncidents toLowerCase incidents searchTerm "resolved")
  + length (IncidentList.filterIncidents toLowerCase incidents searchTerm "rejected")
  = length (IncidentList.filterIncidents toLowerCase incidents searchTerm "all").
Proof.
  unfold IncidentList.filterIncidents.
  generalize (IncidentList.searchStep toLowerCase searchTerm incidents) as found.
  intros found. rewrite statusStep_all.
  rewrite !statusStep_concrete by discriminate.
  induction found as [|incident found IH]; [reflexivity|].
  cbn [List.filter].
  assert (Hhead : forall name : string,
             IncidentList.matchesStatus name incident
             = String.eqb (status_str (Incident.status incident)) name)
    by reflexivity.
  rewrite !Hhead.
  destruct (Incident.status incident); simpl; lia.
Qed.

End MoreFilterFacts.

Lemma search_ignores_case_witness :
  "MERCADO" <> "" /\ "Mercado" <> ""
  /\ IncidentList.filterIncidents Sample.toLowerCase
       [Sample.poste; Sample.bache; Sample.farola] "MERCADO" "all"
     = IncidentList.filterIncidents Sample.toLowerCase
         [Sample.poste; Sample.bache; Sample.farola] "Mercado" "all".
Proof.
  assert (H1 : "MERCADO" <> "") by discriminate.
  assert (H2 : "Mercado" <> "") by discriminate.
  split; [exact H1|]. split; [exact H2|].
  exact (search_ignores_case Sample.toLowerCase
           [Sample.poste; Sample.bache; Sample.farola] "MERCADO" "Mercado" "all"
           H1 H2 eq_refl).
Defined.

Lemma unknown_status_gives_nothing_witness :
  "Pending" <> "all"
  /\ IncidentList.filterIncidents Sample.toLowerCase
       [Sample.poste; Sample.bache; Sample.farola] "" "Pending" = [].
Proof.
  assert (H1 : "Pending" <> "all") by discriminate.
  assert (H2 : forall s : Status, status_str s <> "Pending")
    by (intros []; discriminate).
  split; [exact H1|].
  exact (unknown_status_gives_nothing Sample.toLowerCase
           [Sample.poste; Sample.bache; Sample.farola] "" "Pending" H1 H2).
Defined.

Lemma longer_term_narrows_witness :
  "Poste c" <> ""
  /\ occurs (Sample.toLowerCase "OST") (Sample.toLowerCase "Poste c")
  /\ sublist
       (IncidentList.filterIncidents Sample.toLowerCase
          [Sample.poste; Sample.bache; Sample.farola] "Poste c" "all")
       (IncidentList.filterIncidents Sample.toLowerCase
          [Sample.poste; Sample.bache; Sample.farola] "OST" "all").
Proof.
  assert (H1 : "Poste c" <> "") by discriminate.
  assert (H2 : occurs (Sample.toLowerCase "OST") (Sample.toLowerCase "Poste c"))
    by (exists "p", "e c"; reflexivity).
  split; [exact H1|]. split; [exact H2|].
  exact (longer_term_narrows Sample.toLowerCase
           [Sample.poste; Sample.bache; Sample.farola] "OST" "Poste c" "all" H1 H2).
Defined.

(** ** Incident browser: the component over time *)

Section BrowserFacts.

Variable toLowerCase : string -> string.

Lemma after_snoc (events : list Browser.Event) (e : Browser.Event) :
  Browser.after toLowerCase (events ++ [e])
  = Browser.step toLowerCase (Browser.after toLowerCase events) e.
Proof. unfold Browser.after. rewrite fold_left_app. reflexivity. Qed.

(** The state after any history, in closed form. *)
Lemma after_history (events : list Browser.Event) :
  Browser.after toLowerCase events
  = Browser.mk (Browser.lastFetched events)
      (IncidentList.filterIncidents toLowerCase (Browser.lastFetched events)
         (Browser.lastTyped events) (Browser.lastChosen events))
      (negb (existsb Browser.is_loaded events))
      (Browser.lastTyped events) (Browser.lastChosen events).
Proof.
  induction events as [|e events IH] using rev_ind; [reflexivity|].
  rewrite after_snoc, IH.
  unfold Browser.lastFetched, Browser.lastTyped, Browser.lastChosen.
  rewrite existsb_app, !fold_left_app. cbn [fold_left existsb].
  destruct e as [[data [err|]]| |]; cbn; rewrite ?orb_true_r, ?orb_false_r; reflexivity.
Qed.

(** X8. What the browser lists depends on its history only through the
    rows of the last fetch that did not fail, the last text typed and the
    last status chosen: after any sequence of events the list shown is
    [filterIncidents] of those three, and a subsequence of the rows
    fetched. *)
Theorem view_follows_latest_inputs (events : list Browser.Event) :
  Browser.filteredIncidents (Browser.after toLowerCase events)
  = IncidentList.filterIncidents toLowerCase (Browser.lastFetched events)
      (Browser.lastTyped events) (Browser.lastChosen events)
  /\ Browser.incidents (Browser.after toLowerCase events) = Browser.lastFetched events
  /\ sublist (Browser.filteredIncidents (Browser.after toLowerCase events))
             (Browser.incidents (Browser.after toLowerCase events)).
Proof.
  rewrite after_history. cbn [Browser.filteredIncidents Browser.incidents].
  split; [reflexivity|]. split; [reflexivity|]. apply filterIncidents_sublist.
Qed.

(** X9. [loading] is true until the fetch settles and false from then on,
    whether the fetch failed or not; typing and choosing a status do not
    touch it.  So the spinner is what is rendered exactly until then. *)
Theorem loading_until_fetch_settles (events : list Browser.Event)
    (toLocaleDateString : string -> string) (profile : option Profile.t) :
  Browser.loading (Browser.after toLowerCase events)
  = negb (existsb Browser.is_loaded events)
  /\ (existsb Browser.is_loaded events = false <->
      Browser.render toLocaleDateString profile (Browser.after toLowerCase events)
      = Browser.spinner).
Proof.
  rewrite after_history. cbn [Browser.loading]. split; [reflexivity|].
  unfold Browser.render. cbn [Browser.loading].
  destruct (existsb Browser.is_loaded events); cbn [negb]; split;
    try reflexivity; discriminate.
Qed.

(** X10. A fetch that fails leaves the list as it was: as long as no
    fetch has succeeded, once one has settled the component renders the
    controls and the empty state, whatever has been typed or chosen. *)
Theorem failed_fetch_shows_empty_state (events : list Browser.Event)
    (toLocaleDateString : string -> string) (profile : option Profile.t) :
  existsb Browser.is_loaded events = true ->
  existsb Browser.is_fetched events = false ->
  Browser.incidents (Browser.after toLowerCase events) = []
  /\ Browser.render toLocaleDateString profile (Browser.after toLowerCase events)
     = IncidentList.El "div" []
         [Browser.controls (Browser.after toLowerCase events);
          IncidentList.renderList toLocaleDateString profile []].
Proof.
  intros Hloaded Hfailed.
  assert (Hrows : Browser.lastFetched events = []).
  { unfold Browser.lastFetched. revert Hfailed. clear Hloaded.
    induction events as [|e events IH] using rev_ind; [reflexivity|].
    rewrite existsb_app, fold_left_app. cbn [existsb fold_left].
    rewrite orb_false_r. intros H. apply orb_false_iff in H. destruct H as [H1 H2].
    rewrite (IH H1). destruct e as [[data [err|]]| |]; try reflexivity.
    discriminate. }
  rewrite after_history, Hrows. cbn [Browser.incidents]. split; [reflexivity|].
  unfold Browser.render. cbn [Browser.loading Browser.filteredIncidents].
  rewrite Hloaded. cbn [negb]. rewrite filterIncidents_nil. reflexivity.
Qed.

(** X11. Criteria are not remembered: typing a text and then typing back
    the text that was there leaves the component as it was, and typing a
    text and choosing a status give the same state in either order. *)
Theorem criteria_round_trip (events : list Browser.Event) (term status : string) :
  Browser.after toLowerCase
    (events ++ [Browser.SearchTyped term;
                Browser.SearchTyped (Browser.searchTerm (Browser.after toLowerCase events))])
  = Browser.after toLowerCase events
  /\ Browser.after toLowerCase
       (events ++ [Browser.SearchTyped term; Browser.StatusChosen status])
     = Browser.after toLowerCase
         (events ++ [Browser.StatusChosen status; Browser.SearchTyped term]).
Proof.
  rewrite !after_history.
  unfold Browser.lastFetched, Browser.lastTyped, Browser.lastChosen.
  rewrite !existsb_app, !fold_left_app. cbn. rewrite !orb_false_r.
  split; reflexivity.
Qed.

End BrowserFacts.

Lemma failed_fetch_shows_empty_state_witness :
  Browser.render (fun d => d) (Some Sample.luis)
    (Browser.after Sample.toLowerCase
       [Browser.SearchTyped "poste";
        Browser.Loaded (Response.mk None (Some Sample.network_down))])
  = IncidentList.El "div" []
      [Browser.controls
         (Browser.after Sample.toLowerCase
            [Browser.SearchTyped "poste";
             Browser.Loaded (Response.mk None (Some Sample.network_down))]);
       IncidentList.renderList (fun d => d) (Some Sample.luis) []].
Proof.
  exact (proj2 (failed_fetch_shows_empty_state Sample.toLowerCase
                  [Browser.SearchTyped "poste";
                   Browser.Loaded (Response.mk None (Some Sample.network_down))]
                  (fun d => d) (Some Sample.luis) eq_refl eq_refl)).
Defined.

(** ** Incident browser: more on the markup *)

Section RenderFacts.

Variable toLocaleDateString : string -> string.

Lemma renderRow_key (profile : option Profile.t) (incident : Incident.t) :
  prop "key" (IncidentList.renderRow toLocaleDateString profile incident)
  = Some (Incident.id incident).
Proof. reflexivity. Qed.

(** X12. The rows are rendered one per filtered incident, in the order of
    the list, each keyed by the identifier of its incident; the empty
    state has no keyed child. *)
Theorem rows_follow_the_list (profile : option Profile.t)
    (filteredIncidents : list Incident.t) :
  childKeys (IncidentList.renderList toLocaleDateString profile filteredIncidents)
  = List.map Incident.id filteredIncidents
  /\ (filteredIncidents <> [] ->
      children (IncidentList.renderList toLocaleDateString profile filteredIncidents)
      = List.map (IncidentList.renderRow toLocaleDateString profile) filteredIncidents).
Proof.
  split.
  - destruct filteredIncidents as [|i rest]; [reflexivity|].
    unfold childKeys. cbn [IncidentList.renderList children].
    generalize (i :: rest) as rows. intros rows.
    induction rows as [|row rows IH]; [reflexivity|].
    change (omap (prop "key")
              (List.map (IncidentList.renderRow toLocaleDateString profile)
                        (row :: rows)))
      with (match prop "key" (IncidentList.renderRow toLocaleDateString profile row) with
            | Some key =>
                key :: omap (prop "key")
                         (List.map (IncidentList.renderRow toLocaleDateString profile)
                                   rows)
            | None =>
                omap (prop "key")
                     (List.map (IncidentList.renderRow toLocaleDateString profile) rows)
            end).
    rewrite renderRow_key, IH. reflexivity.
  - destruct filteredIncidents as [|i rest]; [congruence | reflexivity].
Qed.

(** X13. An authority sees who reported: when the viewer's role is
    authority and the incident carries its reporting profile, the line at
    the bottom of the row ends with "Reportado por: " followed by the
    reporter's full name, whatever the address. *)
Theorem authority_sees_reporter (viewer reporter : Profile.t) (incident : Incident.t) :
  Profile.role viewer = authority ->
  Incident.profiles incident = Some reporter ->
  exists before : list IncidentList.Node,
    infoLine (IncidentList.renderRow toLocaleDateString (Some viewer) incident)
    = before
      ++ [IncidentList.El "div" [IncidentList.className "text-xs"]
            [IncidentList.Txt "Reportado por: ";
             IncidentList.Txt (Profile.full_name reporter)]].
Proof.
  intros Hrole Hreporter.
  unfold IncidentList.renderRow, IncidentList.reporterShown, IncidentList.is_authority.
  rewrite Hrole, Hreporter. cbn [infoLine children role_str].
  rewrite app_assoc. eexists. reflexivity.
Qed.

End RenderFacts.

Lemma rows_follow_the_list_witness :
  [Sample.poste; Sample.farola] <> []
  /\ children (IncidentList.renderList (fun d => d) None [Sample.poste; Sample.farola])
     = [IncidentList.renderRow (fun d => d) None Sample.poste;
        IncidentList.renderRow (fun d => d) None Sample.farola].
Proof.
  assert (H : [Sample.poste; Sample.farola] <> []) by discriminate.
  split; [exact H|].
  exact (proj2 (rows_follow_the_list (fun d => d) None [Sample.poste; Sample.farola]) H).
Defined.

Lemma authority_sees_reporter_witness :
  exists before : list IncidentList.Node,
    infoLine (IncidentList.renderRow (fun d => d) (Some Sample.ana) Sample.poste)
    = before
      ++ [IncidentList.El "div" [IncidentList.className "text-xs"]
            [IncidentList.Txt "Reportado por: "; IncidentList.Txt "Luis Rojas"]].
Proof.
  exact (authority_sees_reporter (fun d => d) Sample.ana Sample.luis Sample.poste
           eq_refl eq_refl).
Defined.

(** ** Session manager: one handler at a time *)

Section MoreSessionFacts.

Context {B : Type} (h : Backend B).

(** Running [p] and then [f]: the second part starts from what the first
    left, unless the first threw. *)
Lemma run_bind {A C : Type} (p : Prog A) (f : A -> Prog C) (st : AuthState.t) (b : B) :
  run h (bind p f) st b
  = match Run.outcome (run h p st b) with
    | Returned a =>
        let r1 := run h p st b in
        let r2 := run h (f a) (Run.state r1) (Run.backend r1) in
        Run.mk (Run.outcome r2) (Run.state r2) (Run.backend r2)
               (Run.requests r1 ++ Run.requests r2)
               (Run.console r1 ++ Run.console r2)
    | Thrown e =>
        let r1 := run h p st b in
        Run.mk (Thrown e) (Run.state r1) (Run.backend r1)
               (Run.requests r1) (Run.console r1)
    end.
Proof.
  revert st b. induction p as [a|e|X c k IH|s k IH|msg e k IH]; intros st b.
  - cbn. destruct (run h (f a) st b); reflexivity.
  - reflexivity.
  - cbn. destruct (h X c b) as [x b']. rewrite IH. cbn.
    destruct (Run.outcome (run h (k x) st b')); reflexivity.
  - cbn. apply IH.
  - cbn. rewrite IH. destruct (Run.outcome (run h k st b)); reflexivity.
Qed.

(** One notification, in closed form. *)
Lemma onAuthStateChange_run (st : AuthState.t) (b : B) (session : option Session.t) :
  run h (AuthContext.onAuthStateChange session) st b
  = match session with
    | None => Run.mk (Returned tt) (AuthState.mk None None None false) b [] []
    | Some s =>
        let reply := h _ (profiles_select_by_id (User.id (Session.user s))) b in
        Run.mk (Returned tt)
          (AuthState.mk (Some (Session.user s))
             (match Response.error (fst reply) with
              | Some _ => AuthState.profile st
              | None => Response.data (fst reply)
              end)
             (Some s) false)
          (snd reply)
          [Req (profiles_select_by_id (User.id (Session.user s)))]
          (match Response.error (fst reply) with
           | Some e => [("Error loading profile:", e)]
           | None => []
           end)
    end.
Proof.
  destruct session as [s|]; [|reflexivity].
  destruct (h _ (profiles_select_by_id (User.id (Session.user s))) b) as [r b1] eqn:Hsel.
  apply (onAuthStateChange_session h st b s r b1 Hsel).
Qed.

(** X14. The handler of auth-state changes never throws, whatever the
    backend answers.  It stores the session it was given and that
    session's user, sends at most one request, the select of that user's
    profile, and no request that changes what the backend stores. *)
Theorem notification_is_safe (st : AuthState.t) (b : B) (session : option Session.t) :
  let result := run h (AuthContext.onAuthStateChange session) st b in
  Run.outcome result = Returned tt
  /\ AuthState.session (Run.state result) = session
  /\ AuthState.user (Run.state result) = option_map Session.user session
  /\ Run.requests result
     = match session with
       | Some s => [Req (profiles_select_by_id (User.id (Session.user s)))]
       | None => []
       end
  /\ Forall (fun q => is_mutation q = false) (Run.requests result).
Proof.
  cbv zeta. rewrite onAuthStateChange_run.
  destruct session as [s|]; cbn; repeat split; repeat constructor.
Qed.

(** The start-up probe, in closed form. *)
Lemma restoreSession_run (st : AuthState.t) (b : B) :
  run h AuthContext.restoreSession st b
  = let probe := h _ auth_getSession b in
    match fst probe with
    | None =>
        Run.mk (Returned tt)
          (AuthState.mk None (AuthState.profile st) None false)
          (snd probe) [Req auth_getSession] []
    | Some s =>
        let reply :=
          h _ (profiles_select_by_id (User.id (Session.user s))) (snd probe) in
        Run.mk (Returned tt)
          (AuthState.mk (Some (Session.user s))
             (match Response.error (fst reply) with
              | Some _ => AuthState.profile st
              | None => Response.data (fst reply)
              end)
             (Some s) false)
          (snd reply)
          [Req auth_getSession;
           Req (profiles_select_by_id (User.id (Session.user s)))]
          (match Response.error (fst reply) with
           | Some e => [("Error loading profile:", e)]
           | None => []
           end)
    end.
Proof.
  cbn. destruct (h _ auth_getSession b) as [[s|] b0]; cbn; [|reflexivity].
  destruct (h _ (profiles_select_by_id (User.id (Session.user s))) b0)
    as [[data [e|]] b1]; reflexivity.
Qed.

(** X15. Start-up: run on the initial state, the probe for an existing
    session never throws and always ends with [loading] false.  Without a
    session there is no user and no profile, and no profile is asked for;
    with a session the user is the session's and the profile is what the
    backend returned, or absent when the fetch failed. *)
Theorem startup_settles (b : B) :
  let result := run h AuthContext.restoreSession AuthState.initial b in
  Run.outcome result = Returned tt
  /\ AuthState.loading (Run.state result) = false
  /\ AuthState.session (Run.state result) = fst (h _ auth_getSession b)
  /\ AuthState.user (Run.state result)
     = option_map Session.user (fst (h _ auth_getSession b))
  /\ AuthState.profile (Run.state result)
     = match fst (h _ auth_getSession b) with
       | None => None
       | Some s =>
           let reply :=
             h _ (profiles_select_by_id (User.id (Session.user s)))
               (snd (h _ auth_getSession b)) in
           match Response.error (fst reply) with
           | Some _ => None
           | None => Response.data (fst reply)
           end
       end
  /\ Forall (fun q => is_mutation q = false) (Run.requests result).
Proof.
  cbv zeta. rewrite restoreSession_run. cbv zeta.
  destruct (fst (h _ auth_getSession b)) as [s|]; cbn; repeat split;
    repeat constructor.
Qed.

End MoreSessionFacts.

(** ** Session manager: every path of sign-up *)

Section MoreSignUpFacts.

Context {B : Type} (h : Backend B).
Variables (email password fullName : string) (phone : option string).

(** [signUp] in closed form, for any backend. *)
Lemma signUp_run (st : AuthState.t) (b : B) :
  run h (AuthContext.signUp email password fullName phone) st b
  = let lookup := h _ (profiles_select_id_is_deleted_by_email email) b in
    match Response.error (fst lookup) with
    | Some e =>
        Run.mk (Thrown (AuthFailure e)) st (snd lookup)
               [Req (profiles_select_id_is_deleted_by_email email)] []
    | None =>
        if AuthContext.is_active (Response.data (fst lookup))
        then Run.mk (Thrown DuplicateAccount) st (snd lookup)
                    [Req (profiles_select_id_is_deleted_by_email email)] []
        else
          let registration := h _ (auth_signUp email password) (snd lookup) in
          match Response.error (fst registration) with
          | Some e =>
              Run.mk (Thrown (AuthFailure e)) st (snd registration)
                     [Req (profiles_select_id_is_deleted_by_email email);
                      Req (auth_signUp email password)] []
          | None =>
              match AuthData.user (Response.data (fst registration)) with
              | None =>
                  Run.mk (Returned tt) st (snd registration)
                         [Req (profiles_select_id_is_deleted_by_email email);
                          Req (auth_signUp email password)] []
              | Some user =>
                  let write :=
                    profileWrite email fullName phone
                                 (Response.data (fst lookup)) user in
                  let written := h _ write (snd registration) in
                  Run.mk (ended (Response.error (fst written))) st (snd written)
                         [Req (profiles_select_id_is_deleted_by_email email);
                          Req (auth_signUp email password);
                          Req write] []
              end
          end
    end.
Proof.
  cbn.
  destruct (h _ (profiles_select_id_is_deleted_by_email email) b)
    as [[existing [e1|]] b1]; cbn; [reflexivity|].
  destruct existing as [[eid [|]]|]; cbn; try reflexivity;
    destruct (h _ (auth_signUp email password) b1) as [[[[user|] s2] [e2|]] b2];
    cbn; try reflexivity.
  - destruct (h _ (profiles_update_by_id (AuthContext.reviveValues fullName phone) eid) b2)
      as [[[] [e3|]] b3]; reflexivity.
  - destruct (h _ (profiles_insert
                     (AuthContext.insertValues (User.id user) email fullName phone)) b2)
      as [[[] [e3|]] b3]; reflexivity.
Qed.

Lemma AuthFailure_has_message (e : JsError.t) : has_message (AuthFailure e).
Proof.
  eexists. split; [reflexivity|]. apply or_else_truthy. reflexivity.
Qed.

Lemma ended_has_message (error : option JsError.t) : throws_with_message (ended error).
Proof. destruct error as [e|]; [apply AuthFailure_has_message | exact I]. Qed.

(** X17. [signUp] only talks to the backend: whatever the backend answers
    and however the call ends, the React state of the provider is the one
    it started from and nothing is written to the console. *)
Theorem signUp_leaves_state_alone (st : AuthState.t) (b : B) :
  Run.state (run h (AuthContext.signUp email password fullName phone) st b) = st
  /\ Run.console (run h (AuthContext.signUp email password fullName phone) st b) = [].
Proof.
  rewrite signUp_run. cbv zeta.
  destruct (Response.error (fst (h _ (profiles_select_id_is_deleted_by_email email) b)));
    [split; reflexivity|].
  destruct (AuthContext.is_active _); [split; reflexivity|].
  destruct (Response.error _); [split; reflexivity|].
  destruct (AuthData.user _); split; reflexivity.
Qed.

(** X18. Whatever the backend answers, an error thrown by [signUp] carries
    a message that is not empty: the backend's own message, the
    duplicate-account message, or "Error al registrarse" when the backend
    gave no message or an empty one. *)
Theorem signUp_errors_have_messages (st : AuthState.t) (b : B) :
  throws_with_message
    (Run.outcome (run h (AuthContext.signUp email password fullName phone) st b)).
Proof.
  rewrite signUp_run. cbv zeta.
  destruct (Response.error (fst (h _ (profiles_select_id_is_deleted_by_email email) b)));
    [apply AuthFailure_has_message|].
  destruct (AuthContext.is_active _);
    [eexists; split; reflexivity|].
  destruct (Response.error _); [apply AuthFailure_has_message|].
  destruct (AuthData.user _); [apply ended_has_message | exact I].
Qed.

(** X19. Whatever the backend answers, the requests of [signUp] are the
    lookup by email, then possibly the credential registration, then
    possibly one write to the table of profiles: never a write without a
    registration before it, never a registration without the lookup
    before it, never two writes. *)
Theorem signUp_request_order (st : AuthState.t) (b : B) :
  SignUpRequests email password
    (Run.requests (run h (AuthContext.signUp email password fullName phone) st b))
  /\ length (profile_writes
               (Run.requests (run h (AuthContext.signUp email password fullName phone) st b)))
     <= 1.
Proof.
  rewrite signUp_run. cbv zeta.
  destruct (Response.error (fst (h _ (profiles_select_id_is_deleted_by_email email) b)));
    [split; [constructor | cbn; lia]|].
  destruct (AuthContext.is_active _); [split; [constructor | cbn; lia]|].
  destruct (Response.error _); [split; [constructor | cbn; lia]|].
  destruct (AuthData.user _) as [user|]; [|split; [constructor | cbn; lia]].
  cbn [Run.requests]. unfold profileWrite.
  destruct (Response.data _) as [[eid [|]]|]; split; try constructor; cbn; lia.
Qed.

(** X20. A lookup that fails stops [signUp]: it throws the backend's
    message (or "Error al registrarse") and the lookup is the only request
    sent. *)
Theorem signUp_lookup_failure (st : AuthState.t) (b : B)
    (r : Response.t (option ExistingProfile.t)) (b1 : B) (e : JsError.t) :
  h _ (profiles_select_id_is_deleted_by_email email) b = (r, b1) ->
  Response.error r = Some e ->
  run h (AuthContext.signUp email password fullName phone) st b
  = Run.mk (Thrown (AuthFailure e)) st b1
      [Req (profiles_select_id_is_deleted_by_email email)] [].
Proof.
  intros Hsel He. rewrite signUp_run, Hsel. cbn. rewrite He. reflexivity.
Qed.

(** X21. A registration that fails stops [signUp] before any write to the
    table of profiles: it throws the backend's message (or "Error al
    registrarse"). *)
Theorem signUp_registration_failure (st : AuthState.t) (b : B)
    (r1 : Response.t (option ExistingProfile.t)) (b1 : B)
    (r2 : Response.t AuthData.t) (b2 : B) (e : JsError.t) :
  h _ (profiles_select_id_is_deleted_by_email email) b = (r1, b1) ->
  Response.error r1 = None ->
  AuthContext.is_active (Response.data r1) = false ->
  h _ (auth_signUp email password) b1 = (r2, b2) ->
  Response.error r2 = Some e ->
  run h (AuthContext.signUp email password fullName phone) st b
  = Run.mk (Thrown (AuthFailure e)) st b2
      [Req (profiles_select_id_is_deleted_by_email email);
       Req (auth_signUp email password)] []
  /\ profile_writes
       (Run.requests (run h (AuthContext.signUp email password fullName phone) st b))
     = [].
Proof.
  intros Hsel He1 Hact Hreg He2.
  rewrite signUp_run, Hsel. cbn. rewrite He1, Hact, Hreg. cbn. rewrite He2.
  split; reflexivity.
Qed.

(** X22. A registration that answers with neither an error nor a user
    makes [signUp] return normally although no profile was written. *)
Theorem signUp_without_user (st : AuthState.t) (b : B)
    (r1 : Response.t (option ExistingProfile.t)) (b1 : B)
    (r2 : Response.t AuthData.t) (b2 : B) :
  h _ (profiles_select_id_is_deleted_by_email email) b = (r1, b1) ->
  Response.error r1 = None ->
  AuthContext.is_active (Response.data r1) = false ->
  h _ (auth_signUp email password) b1 = (r2, b2) ->
  Response.error r2 = None ->
  AuthData.user (Response.data r2) = None ->
  run h (AuthContext.signUp email password fullName phone) st b
  = Run.mk (Returned tt) st b2
      [Req (profiles_select_id_is_deleted_by_email email);
       Req (auth_signUp email password)] []
  /\ profile_writes
       (Run.requests (run h (AuthContext.signUp email password fullName phone) st b))
     = [].
Proof.
  intros Hsel He1 Hact Hreg He2 Hu2.
  rewrite signUp_run, Hsel. cbn. rewrite He1, Hact, Hreg. cbn. rewrite He2, Hu2.
  split; reflexivity.
Qed.

(** X23. A fresh sign-up: when the lookup finds no profile and the
    registration returns a user, the one write is an insert of a profile
    with the identifier of that user, the email, the full name, the phone
    ([null] when none or empty) and the role citizen; no update is
    sent, and [signUp] returns unless the insert is refused. *)
Theorem signUp_inserts_citizen (st : AuthState.t) (b : B)
    (r1 : Response.t (option ExistingProfile.t)) (b1 : B)
    (r2 : Response.t AuthData.t) (b2 : B) (user : User.t) :
  h _ (profiles_select_id_is_deleted_by_email email) b = (r1, b1) ->
  Response.error r1 = None ->
  Response.data r1 = None ->
  h _ (auth_signUp email password) b1 = (r2, b2) ->
  Response.error r2 = None ->
  AuthData.user (Response.data r2) = Some user ->
  let values :=
    {| Values.id := Some (User.id user);
       Values.email := Some email;
       Values.full_name := Some fullName;
       Values.phone := Some (Js.or_null phone);
       Values.role := Some citizen;
       Values.is_deleted := None;
       Values.deleted_at := None |} in
  let result := run h (AuthContext.signUp email password fullName phone) st b in
  Run.requests result
  = [Req (profiles_select_id_is_deleted_by_email email);
     Req (auth_signUp email password);
     Req (profiles_insert values)]
  /\ profile_writes (Run.requests result) = [Inserted values]
  /\ Run.outcome result
     = ended (Response.error (fst (h _ (profiles_insert values) b2))).
Proof.
  intros Hsel He1 Hd1 Hreg He2 Hu2 values result. subst result.
  rewrite signUp_run, Hsel. cbn. rewrite He1, Hd1. cbn. rewrite Hreg. cbn.
  rewrite He2, Hu2. repeat split.
Qed.

(** X24. [signUp] is not atomic: when the registration has returned a user
    and the write to the table of profiles is then refused, [signUp]
    throws the backend's message (or "Error al registrarse") after the
    registration has been sent, and the backend is left as the refused
    write left it. *)
Theorem signUp_write_failure (st : AuthState.t) (b : B)
    (r1 : Response.t (option ExistingProfile.t)) (b1 : B)
    (r2 : Response.t AuthData.t) (b2 : B) (user : User.t)
    (r3 : Response.t unit) (b3 : B) (e : JsError.t) :
  h _ (profiles_select_id_is_deleted_by_email email) b = (r1, b1) ->
  Response.error r1 = None ->
  AuthContext.is_active (Response.data r1) = false ->
  h _ (auth_signUp email password) b1 = (r2, b2) ->
  Response.error r2 = None ->
  AuthData.user (Response.data r2) = Some user ->
  h _ (profileWrite email fullName phone (Response.data r1) user) b2 = (r3, b3) ->
  Response.error r3 = Some e ->
  run h (AuthContext.signUp email password fullName phone) st b
  = Run.mk (Thrown (AuthFailure e)) st b3
      [Req (profiles_select_id_is_deleted_by_email email);
       Req (auth_signUp email password);
       Req (profileWrite email fullName phone (Response.data r1) user)] [].
Proof.
  intros Hsel He1 Hact Hreg He2 Hu2 Hwrite He3.
  rewrite signUp_run, Hsel. cbn. rewrite He1, Hact, Hreg. cbn. rewrite He2, Hu2.
  cbv zeta. rewrite Hwrite. cbn. rewrite He3. reflexivity.
Qed.

End MoreSignUpFacts.

Lemma signUp_lookup_failure_witness :
  run Hosted.handle (AuthContext.signUp "ana@chepen.pe" "secreto" "Ana T." None)
      AuthState.initial
      (Hosted.mk [Sample.ana] [] None (Some Sample.network_down))
  = Run.mk (Thrown (new_Error "Failed to fetch")) AuthState.initial
      (Hosted.mk [Sample.ana] [] None (Some Sample.network_down))
      [Req (profiles_select_id_is_deleted_by_email "ana@chepen.pe")] [].
Proof.
  exact (signUp_lookup_failure Hosted.handle "ana@chepen.pe" "secreto" "Ana T." None
           AuthState.initial
           (Hosted.mk [Sample.ana] [] None (Some Sample.network_down))
           (Response.mk None (Some Sample.network_down))
           (Hosted.mk [Sample.ana] [] None (Some Sample.network_down))
           Sample.network_down eq_refl eq_refl).
Defined.

Lemma signUp_registration_failure_witness :
  run (Scripted.handle
         (Scripted.mk Scripted.no_row
            (Scripted.failed (Some "Password should be at least 6 characters")
                             (AuthData.mk None None))
            Scripted.accepted))
      (AuthContext.signUp "eva@chepen.pe" "abc" "Eva" None) AuthState.initial tt
  = Run.mk (Thrown (new_Error "Password should be at least 6 characters"))
      AuthState.initial tt
      [Req (profiles_select_id_is_deleted_by_email "eva@chepen.pe");
       Req (auth_signUp "eva@chepen.pe" "abc")] [].
Proof.
  exact (proj1 (signUp_registration_failure
                  (Scripted.handle
                     (Scripted.mk Scripted.no_row
                        (Scripted.failed (Some "Password should be at least 6 characters")
                                         (AuthData.mk None None))
                        Scripted.accepted))
                  "eva@chepen.pe" "abc" "Eva" None AuthState.initial tt
                  Scripted.no_row tt
                  (Scripted.failed (Some "Password should be at least 6 characters")
                                   (AuthData.mk None None))
                  tt (JsError.mk (Some "Password should be at least 6 characters"))
                  eq_refl eq_refl eq_refl eq_refl eq_refl)).
Defined.

Lemma signUp_without_user_witness :
  run (Scripted.handle (Scripted.mk Scripted.no_row Scripted.no_user Scripted.accepted))
      (AuthContext.signUp "eva@chepen.pe" "secreto" "Eva" None) AuthState.initial tt
  = Run.mk (Returned tt) AuthState.initial tt
      [Req (profiles_select_id_is_deleted_by_email "eva@chepen.pe");
       Req (auth_signUp "eva@chepen.pe" "secreto")] [].
Proof.
  exact (proj1 (signUp_without_user
                  (Scripted.handle
                     (Scripted.mk Scripted.no_row Scripted.no_user Scripted.accepted))
                  "eva@chepen.pe" "secreto" "Eva" None AuthState.initial tt
                  Scripted.no_row tt Scripted.no_user tt
                  eq_refl eq_refl eq_refl eq_refl eq_refl eq_refl)).
Defined.

Lemma signUp_inserts_citizen_witness :
  profile_writes
    (Run.requests
       (run Hosted.handle
            (AuthContext.signUp "eva@chepen.pe" "secreto" "Eva Luna" (Some "977000111"))
            AuthState.initial Sample.db))
  = [Inserted
       {| Values.id := Some "user:eva@chepen.pe";
          Values.email := Some "eva@chepen.pe";
          Values.full_name := Some "Eva Luna";
          Values.phone := Some (Some "977000111");
          Values.role := Some citizen;
          Values.is_deleted := None;
          Values.deleted_at := None |}].
Proof.
  exact (proj1 (proj2 (signUp_inserts_citizen Hosted.handle
                         "eva@chepen.pe" "secreto" "Eva Luna" (Some "977000111")
                         AuthState.initial Sample.db
                         (Response.mk None None) Sample.db
                         (Response.mk
                            (AuthData.mk
                               (Some (User.mk "user:eva@chepen.pe" "eva@chepen.pe")) None)
                            None)
                         (Hosted.mk [Sample.ana; Sample.luis; Sample.rosa]
                                    [User.mk "user:eva@chepen.pe" "eva@chepen.pe"]
                                    None None)
                         (User.mk "user:eva@chepen.pe" "eva@chepen.pe")
                         eq_refl eq_refl eq_refl eq_refl eq_refl eq_refl))).
Defined.

Lemma signUp_write_failure_witness :
  run (Scripted.handle
         (Scripted.mk Scripted.no_row Scripted.registered (Scripted.failed None tt)))
      (AuthContext.signUp "eva@chepen.pe" "secreto" "Eva" None) AuthState.initial tt
  = Run.mk (Thrown (new_Error "Error al registrarse")) AuthState.initial tt
      [Req (profiles_select_id_is_deleted_by_email "eva@chepen.pe");
       Req (auth_signUp "eva@chepen.pe" "secreto");
       Req (profiles_insert
              (AuthContext.insertValues "u-eva" "eva@chepen.pe" "Eva" None))] [].
Proof.
  exact (signUp_write_failure
           (Scripted.handle
              (Scripted.mk Scripted.no_row Scripted.registered (Scripted.failed None tt)))
           "eva@chepen.pe" "secreto" "Eva" None AuthState.initial tt
           Scripted.no_row tt Scripted.registered tt Scripted.eva
           (Scripted.failed None tt) tt (JsError.mk None)
           eq_refl eq_refl eq_refl eq_refl eq_refl eq_refl eq_refl eq_refl).
Defined.

(** ** Session manager: sign-in, sign-out and password reset *)


(** ** Session manager: a fetch that succeeds *)

(** X26. When the profile fetch of a notification does not fail, the
    profile stored is exactly what the backend returned for the user of
    the new session, absent when it returned no row: the profile that was
    there before is not kept. *)
Theorem fetched_profile_replaces {B : Type} (h : Backend B) (st : AuthState.t) (b : B)
    (session : Session.t) (r : Response.t (option Profile.t)) (b1 : B) :
  h _ (profiles_select_by_id (User.id (Session.user session))) b = (r, b1) ->
  Response.error r = None ->
  Run.state (run h (AuthContext.onAuthStateChange (Some session)) st b)
  = AuthState.mk (Some (Session.user session)) (Response.data r) (Some session) false
  /\ Run.console (run h (AuthContext.onAuthStateChange (Some session)) st b) = [].
Proof.
  intros Hsel He.
  rewrite (onAuthStateChange_session h st b session r b1 Hsel), He.
  split; reflexivity.
Qed.

Lemma fetched_profile_replaces_witness :
  Run.state (run Hosted.handle (AuthContext.onAuthStateChange (Some Sample.luis_session))
                 Sample.ana_signed_in Sample.db)
  = AuthState.mk (Some (Session.user Sample.luis_session)) (Some Sample.luis)
                 (Some Sample.luis_session) false.
Proof.
  exact (proj1 (fetched_profile_replaces Hosted.handle Sample.ana_signed_in Sample.db
                  Sample.luis_session (Response.mk (Some Sample.luis) None) Sample.db
                  eq_refl eq_refl)).
Defined.

(** ** Sign-up twice, against the reference backend *)

Lemma filter_map_same {A : Type} (p : A -> bool) (f : A -> A) (l : list A) :
  (forall x, p (f x) = p x) ->
  List.filter p (List.map f l) = List.map f (List.filter p l).
Proof.
  intros Hp. induction l as [|x l IH]; [reflexivity|].
  cbn [List.map List.filter]. rewrite Hp.
  destruct (p x); cbn [List.map]; rewrite IH; reflexivity.
Qed.

(** A fresh sign-up on the reference backend, outside an outage: the
    profile is added at the end of the table. *)
Lemma signUp_fresh_on_hosted (db : Hosted.t)
    (email password fullName : string) (phone : option string) (st : AuthState.t) :
  Hosted.outage db = None ->
  List.filter (Hosted.has_email email) (Hosted.profiles db) = [] ->
  existsb (Hosted.has_id ("user:" ++ email)%string) (Hosted.profiles db) = false ->
  run Hosted.handle (AuthContext.signUp email password fullName phone) st db
  = Run.mk (Returned tt) st
      (Hosted.mk
         (Hosted.profiles db
          ++ [Profile.mk ("user:" ++ email)%string email fullName (Js.or_null phone)
                         citizen false None])
         (Hosted.users db ++ [User.mk ("user:" ++ email)%string email])
         (Hosted.current db) None)
      [Req (profiles_select_id_is_deleted_by_email email);
       Req (auth_signUp email password);
       Req (profiles_insert
              (AuthContext.insertValues ("user:" ++ email)%string email fullName phone))]
      [].
Proof.
  intros Hup Hrows Hid. destruct db as [rows users current outage].
  cbn in Hup, Hrows, Hid. subst outage.
  rewrite signUp_run. cbn. rewrite Hrows. cbn. rewrite Hid. reflexivity.
Qed.

(** X27. Signing up twice: on the reference backend, outside an outage,
    once a fresh sign-up with an email has returned, a second sign-up with
    the same email, whatever the password, name and phone, throws the
    duplicate-account error and leaves the backend as the first left
    it. *)
Theorem second_signUp_is_duplicate (db : Hosted.t)
    (email password fullName password' fullName' : string)
    (phone phone' : option string) (st st' : AuthState.t) :
  Hosted.outage db = None ->
  List.filter (Hosted.has_email email) (Hosted.profiles db) = [] ->
  existsb (Hosted.has_id ("user:" ++ email)%string) (Hosted.profiles db) = false ->
  let first := run Hosted.handle (AuthContext.signUp email password fullName phone) st db in
  let second :=
    run Hosted.handle (AuthContext.signUp email password' fullName' phone') st'
        (Run.backend first) in
  Run.outcome first = Returned tt
  /\ Run.outcome second = Thrown DuplicateAccount
  /\ Run.backend second = Run.backend first
  /\ Run.requests second = [Req (profiles_select_id_is_deleted_by_email email)].
Proof.
  intros Hup Hrows Hid first second. subst first second.
  rewrite (signUp_fresh_on_hosted db email password fullName phone st Hup Hrows Hid).
  cbn [Run.outcome Run.backend].
  rewrite (signUp_duplicate_on_hosted _
             (Profile.mk ("user:" ++ email)%string email fullName (Js.or_null phone)
                         citizen false None)
             email password' fullName' phone' st').
  - repeat split.
  - reflexivity.
  - cbn [Hosted.profiles]. rewrite List.filter_app, Hrows.
    cbn. unfold Hosted.has_email. cbn. rewrite String.eqb_refl. reflexivity.
  - reflexivity.
Qed.

Lemma second_signUp_is_duplicate_witness :
  Run.outcome
    (run Hosted.handle (AuthContext.signUp "eva@chepen.pe" "otra" "Eva L." None)
         AuthState.initial
         (Run.backend
            (run Hosted.handle
                 (AuthContext.signUp "eva@chepen.pe" "secreto" "Eva Luna" None)
                 AuthState.initial Sample.db)))
  = Thrown DuplicateAccount.
Proof.
  exact (proj1 (proj2 (second_signUp_is_duplicate Sample.db
                         "eva@chepen.pe" "secreto" "Eva Luna" "otra" "Eva L."
                         None None AuthState.initial AuthState.initial
                         eq_refl eq_refl eq_refl))).
Defined.

(** X28. Revival happens once: on the reference backend, outside an
    outage, after a sign-up has revived the one soft-deleted profile of an
    email, a second sign-up with that email throws the duplicate-account
    error and leaves the backend as the first left it. *)
Theorem signUp_after_revival_is_duplicate (db : Hosted.t) (row : Profile.t)
    (email password fullName password' fullName' : string)
    (phone phone' : option string) (st st' : AuthState.t) :
  Hosted.outage db = None ->
  List.filter (Hosted.has_email email) (Hosted.profiles db) = [row] ->
  Profile.is_deleted row = true ->
  let first := run Hosted.handle (AuthContext.signUp email password fullName phone) st db in
  let second :=
    run Hosted.handle (AuthContext.signUp email password' fullName' phone') st'
        (Run.backend first) in
  Run.outcome first = Returned tt
  /\ Run.outcome second = Thrown DuplicateAccount
  /\ Run.backend second = Run.backend first
  /\ Run.requests second = [Req (profiles_select_id_is_deleted_by_email email)].
Proof.
  intros Hup Hrows Hdel first second. subst first second.
  rewrite (signUp_revival_on_hosted db row email password fullName phone st
             Hup Hrows Hdel).
  cbn [Run.outcome Run.backend].
  rewrite (signUp_duplicate_on_hosted _
             (Hosted.write (AuthContext.reviveValues fullName phone) row)
             email password' fullName' phone' st').
  - repeat split.
  - reflexivity.
  - cbn [Hosted.profiles]. unfold Hosted.update.
    rewrite filter_map_same.
    + rewrite Hrows. cbn [List.map]. rewrite String.eqb_refl. reflexivity.
    + intros x. destruct (String.eqb (Profile.id x) (Profile.id row)); reflexivity.
  - reflexivity.
Qed.

Lemma signUp_after_revival_is_duplicate_witness :
  Run.outcome
    (run Hosted.handle (AuthContext.signUp "rosa@chepen.pe" "otra" "Rosa" None)
         AuthState.initial
         (Run.backend
            (run Hosted.handle
                 (AuthContext.signUp "rosa@chepen.pe" "clave" "Rosa D." None)
                 AuthState.initial Sample.db)))
  = Thrown DuplicateAccount.
Proof.
  exact (proj1 (proj2 (signUp_after_revival_is_duplicate Sample.db Sample.rosa
                         "rosa@chepen.pe" "clave" "Rosa D." "otra" "Rosa"
                         None None AuthState.initial AuthState.initial
                         eq_refl eq_refl eq_refl))).
Defined.

(** ** Session manager: notifications and answers interleaved *)

Section EventLoopFacts.

Context {B : Type} (h : Backend B).

Lemma advance_signed_out (st : AuthState.t) :
  EventLoop.advance (AuthContext.onAuthStateChange None) st
  = EventLoop.Advance.mk (EventLoop.Ended (Returned tt))
      (AuthState.mk None None None false) [].
Proof. reflexivity. Qed.

(** With a session, the callback stores the session and its user, sends
    the select of the profile and waits; the rest runs when the answer
    comes. *)
Lemma advance_signed_in (s : Session.t) (st : AuthState.t) :
  exists k : Response.t (option Profile.t) -> Prog unit,
    EventLoop.advance (AuthContext.onAuthStateChange (Some s)) st
    = EventLoop.Advance.mk
        (EventLoop.Waiting
           (EventLoop.task (profiles_select_by_id (User.id (Session.user s))) k))
        (AuthState.mk (Some (Session.user s)) (AuthState.profile st) (Some s)
                      (AuthState.loading st))
        []
    /\ forall (x : Response.t (option Profile.t)) (st' : AuthState.t),
         EventLoop.advance (k x) st'
         = EventLoop.Advance.mk (EventLoop.Ended (Returned tt))
             (AuthState.mk (AuthState.user st')
                (match Response.error x with
                 | Some _ => AuthState.profile st'
                 | None => Response.data x
                 end)
                (AuthState.session st') false)
             (match Response.error x with
              | Some e => [("Error loading profile:", e)]
              | None => []
              end).
Proof.
  eexists. split; [reflexivity|].
  intros [data [e|]] st'; reflexivity.
Qed.

Lemma step_only_loads (l : EventLoop.t B) (e : EventLoop.Event) :
  EventLoop.only_loads l -> EventLoop.only_loads (EventLoop.step h l e).
Proof.
  intros (Hpending & Hrejected & Hsent). destruct e as [[s|]|i].
  - cbn [EventLoop.step].
    destruct (advance_signed_in s (EventLoop.state l)) as (k & -> & Hk).
    unfold EventLoop.only_loads, EventLoop.stopped. cbn. repeat split.
    + apply Forall_app. split; [exact Hpending|]. constructor; [|constructor].
      intros x st. rewrite Hk. cbn. repeat split.
    + rewrite Hrejected. reflexivity.
    + apply Forall_app. split; [exact Hsent|]. repeat constructor.
  - cbn [EventLoop.step]. rewrite advance_signed_out.
    unfold EventLoop.only_loads, EventLoop.stopped. cbn.
    rewrite !app_nil_r. repeat split; assumption.
  - cbn [EventLoop.step].
    destruct (EventLoop.pending l !! i) as [[X c k]|] eqn:Hi;
      [|repeat split; assumption].
    destruct (h X c (EventLoop.backend l)) as [x b'].
    pose proof (Forall_lookup_1 _ _ _ _ Hpending Hi) as Hload.
    destruct (Hload x (EventLoop.state l)) as (Hstop & _).
    unfold EventLoop.only_loads, EventLoop.stopped. rewrite Hstop. cbn.
    rewrite !app_nil_r. repeat split; try assumption.
    apply Forall_delete, Hpending.
Qed.

Lemma run_only_loads (events : list EventLoop.Event) (l : EventLoop.t B) :
  EventLoop.only_loads l -> EventLoop.only_loads (EventLoop.run_events h l events).
Proof.
  revert l. induction events as [|e events IH]; intros l Hl; [exact Hl|].
  apply IH, step_only_loads, Hl.
Qed.

(** An answer changes neither the session nor the user, and ends the
    wait of the handler it resumes. *)
Lemma answered_keeps_session (l : EventLoop.t B) (i : nat) :
  EventLoop.only_loads l ->
  AuthState.session (EventLoop.state (EventLoop.step h l (EventLoop.Answered i)))
  = AuthState.session (EventLoop.state l)
  /\ AuthState.user (EventLoop.state (EventLoop.step h l (EventLoop.Answered i)))
     = AuthState.user (EventLoop.state l)
  /\ (EventLoop.settling l ->
      EventLoop.settling (EventLoop.step h l (EventLoop.Answered i))).
Proof.
  intros (Hpending & _ & _). cbn [EventLoop.step].
  destruct (EventLoop.pending l !! i) as [[X c k]|] eqn:Hi; [|repeat split; auto].
  destruct (h X c (EventLoop.backend l)) as [x b'].
  pose proof (Forall_lookup_1 _ _ _ _ Hpending Hi) as Hload.
  destruct (Hload x (EventLoop.state l)) as (_ & Hsession & Huser & Hloading).
  unfold EventLoop.settling, EventLoop.stopped. cbn.
  repeat split; try assumption. intros _. left. exact Hloading.
Qed.

Lemma answers_keep_session (answers : list nat) (l : EventLoop.t B) :
  EventLoop.only_loads l ->
  EventLoop.settling l ->
  let l' := EventLoop.run_events h l (List.map EventLoop.Answered answers) in
  AuthState.session (EventLoop.state l') = AuthState.session (EventLoop.state l)
  /\ AuthState.user (EventLoop.state l') = AuthState.user (EventLoop.state l)
  /\ EventLoop.settling l'.
Proof.
  revert l. induction answers as [|i answers IH]; intros l Hl Hs; [repeat split; exact Hs|].
  cbn [List.map EventLoop.run_events fold_left].
  destruct (answered_keeps_session l i Hl) as (Hsession & Huser & Hsettling).
  destruct (IH (EventLoop.step h l (EventLoop.Answered i))
               (step_only_loads l (EventLoop.Answered i) Hl) (Hsettling Hs))
    as (IH1 & IH2 & IH3).
  unfold EventLoop.run_events in *. cbv zeta in *.
  rewrite IH1, IH2, Hsession, Huser. repeat split. exact IH3.
Qed.


(** X29. A sign-out can be overtaken by a pending profile fetch: when a
    notification with a session is followed by a notification without one
    before the profile request of the first is answered, and the answer
    carries no error, the component ends with no session, no user, and
    the profile the answer carried.  When the answer arrives before the
    second notification, it ends with no profile. *)
Theorem sign_out_overtaken_by_fetch (st : AuthState.t) (b : B) (s : Session.t)
    (r : Response.t (option Profile.t)) (b1 : B) :
  h _ (profiles_select_by_id (User.id (Session.user s))) b = (r, b1) ->
  Response.error r = None ->
  EventLoop.run_events h (EventLoop.start st b)
    [EventLoop.Notified (Some s); EventLoop.Notified None; EventLoop.Answered 0]
  = EventLoop.mk (AuthState.mk None (Response.data r) None false) b1 []
      [Req (profiles_select_by_id (User.id (Session.user s)))] [] []
  /\ EventLoop.run_events h (EventLoop.start st b)
       [EventLoop.Notified (Some s); EventLoop.Answered 0; EventLoop.Notified None]
     = EventLoop.mk (AuthState.mk None None None false) b1 []
         [Req (profiles_select_by_id (User.id (Session.user s)))] [] [].
Proof.
  intros Hsel He. destruct r as [data e]. cbn in He. subst e.
  split; cbn; rewrite Hsel; reflexivity.
Qed.

End EventLoopFacts.

Lemma sign_out_overtaken_by_fetch_witness :
  EventLoop.state
    (EventLoop.run_events Hosted.handle
       (EventLoop.start Sample.ana_signed_in Sample.db)
       [EventLoop.Notified (Some Sample.luis_session);
        EventLoop.Notified None;
        EventLoop.Answered 0])
  = AuthState.mk None (Some Sample.luis) None false.
Proof.
  exact (f_equal EventLoop.state
           (proj1 (sign_out_overtaken_by_fetch Hosted.handle
                     Sample.ana_signed_in Sample.db Sample.luis_session
                     (Response.mk (Some Sample.luis) None) Sample.db
                     eq_refl eq_refl))).
Defined.
